(** * pouty.console: a shallow embedding of the console printer

    The model follows [pouty/console.py]: the terminal colour functions, the
    class-level state of [ConsolePrinter] (output file, timestamp switch,
    hanging flag), the prefixed emit [__call__], the raw [printf] path and the
    output-file methods.  Everything the code writes is recorded, in order,
    as a list of events.

    Python [str] values are modelled by [string]; one [ascii] stands for one
    character, so the model covers texts over the code points 0..255. *)

From Stdlib Require Import String Ascii List Bool Arith Lia DecimalString.
Import ListNotations.
Local Open Scope list_scope.
Local Open Scope string_scope.

(** ** The operations of Python's [str] that the module uses *)

Module PyStr.

Definition LF : ascii := "010"%char.
Definition ESC : ascii := "027"%char.
Definition nl : string := String LF "".

(** [s * n] *)
Fixpoint mul (s : string) (n : nat) : string :=
  match n with
  | O => ""
  | S k => s ++ mul s k
  end.

(** [s[n:]] *)
Fixpoint drop (n : nat) (s : string) : string :=
  match n, s with
  | O, _ => s
  | S k, String _ r => drop k r
  | S _, "" => ""
  end.

(** [s[:n]] *)
Fixpoint take (n : nat) (s : string) : string :=
  match n, s with
  | S k, String c r => String c (take k r)
  | _, _ => ""
  end.

(** [s.endswith(suffix)] *)
Definition endswith (s suffix : string) : bool :=
  Nat.leb (String.length suffix) (String.length s)
  && String.eqb (drop (String.length s - String.length suffix) s) suffix.

(** [sub in s] *)
Fixpoint contains (sub s : string) : bool :=
  prefix sub s
  || match s with
     | String _ r => contains sub r
     | "" => false
     end.

(** [s.split(sep)] for a separator of one character: never empty. *)
Fixpoint split (sep : ascii) (s : string) : list string :=
  match s with
  | "" => [""]
  | String c r =>
      if Ascii.eqb c sep then "" :: split sep r
      else match split sep r with
           | h :: t => String c h :: t
           | [] => [String c ""]
           end
  end.

(** [str.isspace] on one character (code points below 256). *)
Definition isspace (c : ascii) : bool :=
  let n := nat_of_ascii c in
  (Nat.leb 9 n && Nat.leb n 13) || (Nat.leb 28 n && Nat.leb n 32)
  || Nat.eqb n 133 || Nat.eqb n 160.

Fixpoint lstrip (s : string) : string :=
  match s with
  | String c r => if isspace c then lstrip r else s
  | "" => ""
  end.

Fixpoint rstrip (s : string) : string :=
  match s with
  | "" => ""
  | String c r =>
      match rstrip r with
      | "" => if isspace c then "" else String c ""
      | r' => String c r'
      end
  end.

(** [s.strip()] *)
Definition strip (s : string) : string := rstrip (lstrip s).

(** [s.ljust(width, fill)] *)
Definition ljust (width : nat) (fill : ascii) (s : string) : string :=
  s ++ mul (String fill "") (width - String.length s).

(** [xs[-1]] of a list that [split] returned. *)
Definition last_item (xs : list string) : string := last xs "".

Definition isdigit (c : ascii) : bool :=
  let n := nat_of_ascii c in Nat.leb 48 n && Nat.leb n 57.

(** [s.rjust(width, fill)] *)
Definition rjust (width : nat) (fill : ascii) (s : string) : string :=
  mul (String fill "") (width - String.length s) ++ s.

(** [str(n)] for a non-negative integer. *)
Definition of_nat (n : nat) : string := NilZero.string_of_uint (Nat.to_uint n).

(** The value of a string of decimal digits. *)
Fixpoint to_nat_from (acc : nat) (s : string) : nat :=
  match s with
  | "" => acc
  | String c r => to_nat_from (10 * acc + (nat_of_ascii c - 48)) r
  end.

Fixpoint all (p : ascii -> bool) (s : string) : bool :=
  match s with
  | "" => true
  | String c r => p c && all p r
  end.

End PyStr.

(** ** Exceptions *)

Inductive exn : Type :=
| ValueError
| KeyError
| IndexError
| NameError
| Unsupported. (* a format field outside the fragment of [str.format] below *)

Inductive result (A : Type) : Type :=
| Ok (a : A)
| Raise (e : exn).
Arguments Ok {A} a.
Arguments Raise {A} e.

(** ** [str.format]

    The fragment of the format mini-language that the model covers: literal
    text, the escapes of the two braces, and replacement fields that are
    empty (automatic numbering), a decimal index, or a keyword.  A field
    with a conversion, a format spec, an attribute or an item access gives
    [Unsupported].  Arguments are strings, which format as themselves. *)

Module Format.

Inductive numbering : Type :=
| Unset
| Auto (next : nat)
| Manual.

Inductive mode : Type :=
| Text                  (* outside a replacement field *)
| Open (name : string)  (* after an opening brace, field name so far *)
| Close.                (* after a closing brace met in literal text *)

Definition lbrace : ascii := "{"%char.
Definition rbrace : ascii := "}"%char.

Definition plain_name_char (c : ascii) : bool :=
  negb (Ascii.eqb c "."%char || Ascii.eqb c "["%char
        || Ascii.eqb c "!"%char || Ascii.eqb c ":"%char).

Fixpoint lookup (k : string) (kw : list (string * string)) : option string :=
  match kw with
  | [] => None
  | (k', v) :: rest => if String.eqb k k' then Some v else lookup k rest
  end.

Definition positional (i : nat) (args : list string) (num : numbering)
  : result (string * numbering) :=
  match nth_error args i with
  | Some v => Ok (v, num)
  | None => Raise IndexError
  end.

Definition field (name : string) (num : numbering)
           (args : list string) (kw : list (string * string))
  : result (string * numbering) :=
  if String.eqb name "" then
    match num with
    | Manual => Raise ValueError
    | Unset => positional 0 args (Auto 1)
    | Auto n => positional n args (Auto (S n))
    end
  else if negb (PyStr.all plain_name_char name) then Raise Unsupported
  else if PyStr.all PyStr.isdigit name then
    match num with
    | Auto _ => Raise ValueError
    | _ => positional (PyStr.to_nat_from 0 name) args Manual
    end
  else
    match lookup name kw with
    | Some v => Ok (v, num)
    | None => Raise KeyError
    end.

Definition push (c : ascii) (r : result string) : result string :=
  match r with
  | Ok s => Ok (String c s)
  | Raise e => Raise e
  end.

Fixpoint go (s : string) (m : mode) (num : numbering)
         (args : list string) (kw : list (string * string)) : result string :=
  match s with
  | "" => match m with Text => Ok "" | _ => Raise ValueError end
  | String c r =>
      match m with
      | Text =>
          if Ascii.eqb c lbrace then go r (Open "") num args kw
          else if Ascii.eqb c rbrace then go r Close num args kw
          else push c (go r Text num args kw)
      | Close =>
          if Ascii.eqb c rbrace then push rbrace (go r Text num args kw)
          else Raise ValueError
      | Open name =>
          if Ascii.eqb c lbrace then
            if String.eqb name "" then push lbrace (go r Text num args kw)
            else Raise ValueError
          else if Ascii.eqb c rbrace then
            match field name num args kw with
            | Raise e => Raise e
            | Ok (v, num') =>
                match go r Text num' args kw with
                | Ok t => Ok (v ++ t)
                | Raise e => Raise e
                end
            end
          else go r (Open (name ++ String c "")) num args kw
      end
  end.

(** [template.format( *args, **kw)] *)
Definition format (template : string) (args : list string)
           (kw : list (string * string)) : result string :=
  go template Text Unset args kw.

End Format.

(** ** [re.sub('(\x1b\[\d;\d\dm)|(\x1b\[0m)', '', s)] *)

Module Re.

Definition at_ (n : nat) (p : ascii -> bool) (s : string) : bool :=
  match String.get n s with
  | Some c => p c
  | None => false
  end.

Definition is_ (a : ascii) : ascii -> bool := Ascii.eqb a.

(** The first alternative, [\x1b\[\d;\d\dm], matches at the head of [s]. *)
Definition color_on (s : string) : bool :=
  at_ 0 (is_ PyStr.ESC) s && at_ 1 (is_ "["%char) s && at_ 2 PyStr.isdigit s
  && at_ 3 (is_ ";"%char) s && at_ 4 PyStr.isdigit s && at_ 5 PyStr.isdigit s
  && at_ 6 (is_ "m"%char) s.

(** The second alternative, [\x1b\[0m], matches at the head of [s]. *)
Definition color_off (s : string) : bool :=
  at_ 0 (is_ PyStr.ESC) s && at_ 1 (is_ "["%char) s && at_ 2 (is_ "0"%char) s
  && at_ 3 (is_ "m"%char) s.

(** Length of the match of the pattern at the head of [s], 0 if none. *)
Definition match_len (s : string) : nat :=
  if color_on s then 7 else if color_off s then 4 else 0.

(** Left to right, non-overlapping: [skip] characters of the current
    match are still to be dropped. *)
Fixpoint sub_go (skip : nat) (s : string) : string :=
  match s with
  | "" => ""
  | String c r =>
      match skip with
      | S k => sub_go k r
      | O =>
          match match_len s with
          | S k => sub_go k r
          | O => String c (sub_go 0 r)
          end
      end
  end.

Definition strip_color (s : string) : string := sub_go 0 s.

End Re.

(** ** The clock: [time.time] and [time.strftime] *)

Record struct_time : Type := {
  tm_year : nat; tm_mon : nat; tm_mday : nat;
  tm_hour : nat; tm_min : nat; tm_sec : nat
}.

(** One reading of the clock: the text of [str(time.time())] and the local
    broken-down time that [time.strftime] formats. *)
Record Clock : Type := {
  time_str : string;
  localtime : struct_time
}.

Module Time.

Definition zpad (w n : nat) : string := PyStr.rjust w "0"%char (PyStr.of_nat n).

Definition directive (d : ascii) (t : struct_time) : string :=
  if Ascii.eqb d "Y"%char then zpad 4 (tm_year t)
  else if Ascii.eqb d "m"%char then zpad 2 (tm_mon t)
  else if Ascii.eqb d "d"%char then zpad 2 (tm_mday t)
  else if Ascii.eqb d "H"%char then zpad 2 (tm_hour t)
  else if Ascii.eqb d "M"%char then zpad 2 (tm_min t)
  else if Ascii.eqb d "S"%char then zpad 2 (tm_sec t)
  else String "%"%char (String d "").

(** [pct]: the previous character was an unconsumed percent sign. *)
Fixpoint strftime_go (pct : bool) (fmt : string) (t : struct_time) : string :=
  match fmt with
  | "" => if pct then "%" else ""
  | String c r =>
      if pct then directive c t ++ strftime_go false r t
      else if Ascii.eqb c "%"%char then strftime_go true r t
      else String c (strftime_go false r t)
  end.

Definition strftime (fmt : string) (t : struct_time) : string :=
  strftime_go false fmt t.

(** The text of a float in positional notation: digits and a point. *)
Definition positional (s : string) : bool :=
  PyStr.all (fun c => PyStr.isdigit c || Ascii.eqb c "."%char) s.

End Time.

(** ** What the program does to the outside, and its state *)

Inductive stream : Type := stdout | stderr.

Inductive event : Type :=
| Print (console : stream) (text : string)  (* text written to a console stream *)
| FdOpen (path mode : string)               (* open(path, mode, 1) succeeded *)
| FdWrite (text : string)                   (* _fd.write(text) *)
| FdFlush                                   (* _fd.flush() *)
| FdClose                                   (* _fd.close() *)
| NotifierNew (prog : string) (echo : bool) (* Notifier(prog=.., echo=..) *)
| Notify (body title : string) (subtitle : option string).

(** A file object. *)
Record file : Type := {
  name : string;
  mode : string;
  closed : bool
}.

(** The module globals that are assigned at run time, the class attributes
    of [ConsolePrinter], and the two parts of the world the code reads: the
    clock and whether [open] succeeds on a path. *)
Record state : Type := {
  QUIET_MODE : bool;
  DEBUG_MODE : bool;
  _outputfile : option string;
  _fd : option file;
  _timestamp : bool;
  _hanging : bool;
  clock : Clock;
  openable : string -> bool
}.

Definition with_QUIET_MODE (b : bool) (st : state) : state :=
  {| QUIET_MODE := b; DEBUG_MODE := DEBUG_MODE st;
     _outputfile := _outputfile st; _fd := _fd st;
     _timestamp := _timestamp st; _hanging := _hanging st;
     clock := clock st; openable := openable st |}.

Definition with_DEBUG_MODE (b : bool) (st : state) : state :=
  {| QUIET_MODE := QUIET_MODE st; DEBUG_MODE := b;
     _outputfile := _outputfile st; _fd := _fd st;
     _timestamp := _timestamp st; _hanging := _hanging st;
     clock := clock st; openable := openable st |}.

Definition with_outputfile (p : option string) (st : state) : state :=
  {| QUIET_MODE := QUIET_MODE st; DEBUG_MODE := DEBUG_MODE st;
     _outputfile := p; _fd := _fd st;
     _timestamp := _timestamp st; _hanging := _hanging st;
     clock := clock st; openable := openable st |}.

Definition with_fd (f : option file) (st : state) : state :=
  {| QUIET_MODE := QUIET_MODE st; DEBUG_MODE := DEBUG_MODE st;
     _outputfile := _outputfile st; _fd := f;
     _timestamp := _timestamp st; _hanging := _hanging st;
     clock := clock st; openable := openable st |}.

Definition with_timestamp (b : bool) (st : state) : state :=
  {| QUIET_MODE := QUIET_MODE st; DEBUG_MODE := DEBUG_MODE st;
     _outputfile := _outputfile st; _fd := _fd st;
     _timestamp := b; _hanging := _hanging st;
     clock := clock st; openable := openable st |}.

Definition with_hanging (b : bool) (st : state) : state :=
  {| QUIET_MODE := QUIET_MODE st; DEBUG_MODE := DEBUG_MODE st;
     _outputfile := _outputfile st; _fd := _fd st;
     _timestamp := _timestamp st; _hanging := b;
     clock := clock st; openable := openable st |}.

(** ** Statements: events written, state after, value or exception *)

Definition M (A : Type) : Type := state -> list event * state * result A.

Definition ret {A} (a : A) : M A := fun st => ([], st, Ok a).

Definition raise {A} (e : exn) : M A := fun st => ([], st, Raise e).

Definition bind {A B} (m : M A) (k : A -> M B) : M B :=
  fun st =>
    match m st with
    | (ev, st1, Ok a) =>
        match k a st1 with
        | (ev', st2, r) => ((ev ++ ev')%list, st2, r)
        end
    | (ev, st1, Raise e) => (ev, st1, Raise e)
    end.

Definition get : M state := fun st => ([], st, Ok st).

Definition modify (f : state -> state) : M unit := fun st => ([], f st, Ok tt).

Definition tell (ev : list event) : M unit := fun st => (ev, st, Ok tt).

Definition lift {A} (r : result A) : M A := fun st => ([], st, r).

Notation "x <- m ;; k" := (bind m (fun x => k))
  (at level 61, m at next level, right associativity).
Notation "' pat <- m ;; k" := (bind m (fun x => match x with pat => k end))
  (at level 61, pat pattern, m at next level, right associativity).
Notation "m ;; k" := (bind m (fun _ => k))
  (at level 61, right associativity).

Definition out {A} (r : list event * state * result A) : list event := fst (fst r).
Definition post {A} (r : list event * state * result A) : state := snd (fst r).
Definition res {A} (r : list event * state * result A) : result A := snd r.

(** What a run wrote to one console stream, to the log file, and the bodies
    it sent to the notifier. *)
Fixpoint printed (c : stream) (ev : list event) : string :=
  match ev with
  | [] => ""
  | Print c' text :: rest =>
      match c, c' with
      | stdout, stdout | stderr, stderr => text ++ printed c rest
      | _, _ => printed c rest
      end
  | _ :: rest => printed c rest
  end.

Fixpoint written (ev : list event) : string :=
  match ev with
  | [] => ""
  | FdWrite text :: rest => text ++ written rest
  | _ :: rest => written rest
  end.

Fixpoint notified (ev : list event) : list string :=
  match ev with
  | [] => []
  | Notify body _ _ :: rest => body :: notified rest
  | _ :: rest => notified rest
  end.

Fixpoint constructed (ev : list event) : nat :=
  match ev with
  | [] => 0
  | NotifierNew _ _ :: rest => S (constructed rest)
  | _ :: rest => constructed rest
  end.

(** ** Terminal color functions *)

Definition _color_format (code text : string) : string :=
  String PyStr.ESC "[" ++ code ++ "m" ++ text ++ String PyStr.ESC "[0m".

Definition snow (s : string) := _color_format "1;37" s.
Definition white (s : string) := _color_format "0;37" s.
Definition lightgray (s : string) := _color_format "1;36" s.
Definition smoke (s : string) := _color_format "1;36" s.
Definition dimgray (s : string) := _color_format "1;33" s.
Definition gray (s : string) := _color_format "1;30" s.
Definition cadetblue (s : string) := _color_format "1;34" s.
Definition seafoam (s : string) := _color_format "1;32" s.
Definition cyan (s : string) := _color_format "0;36" s.
Definition blue (s : string) := _color_format "0;34" s.
Definition purple (s : string) := _color_format "1;35" s.
Definition pink (s : string) := _color_format "0;35" s.
Definition red (s : string) := _color_format "0;31" s.
Definition orange (s : string) := _color_format "1;31" s.
Definition yellow (s : string) := _color_format "0;33" s.
Definition ochre (s : string) := _color_format "0;33" s.
Definition green (s : string) := _color_format "0;32" s.
Definition default (s : string) := _color_format "" s.

Definition _lightred := orange.
Definition _lightgreen := seafoam.
Definition _brown := yellow.
Definition _lightblue := cadetblue.
Definition _lightcyan := lightgray.

Definition COL_FUNC : list (string * (string -> string)) :=
  [ ("snow", snow); ("white", white); ("lightgray", lightgray);
    ("smoke", smoke); ("dimgray", dimgray); ("gray", gray);
    ("cadetblue", cadetblue); ("seafoam", seafoam); ("cyan", cyan);
    ("blue", blue); ("purple", purple); ("pink", pink); ("red", red);
    ("orange", orange); ("yellow", yellow); ("ochre", ochre);
    ("green", green); ("lightred", _lightred); ("lightgreen", _lightgreen);
    ("brown", _brown); ("lightblue", _lightblue); ("lightcyan", _lightcyan);
    ("default", default) ].

Definition DEFAULT_PREFIX_COLOR : string := "cyan".
Definition DEFAULT_MSG_COLOR : string := "default".

(** [COL_FUNC[color]] *)
Fixpoint getitem (d : list (string * (string -> string))) (color : string)
  : result (string -> string) :=
  match d with
  | [] => Raise KeyError
  | (k, f) :: rest => if String.eqb color k then Ok f else getitem rest color
  end.

(** The builtin [str], on a string. *)
Definition str (s : string) : string := s.

(** The names bound in the module's namespace: by its imports ([import os],
    [import re], [import time], [from sys import stdout, stderr, platform],
    [from roto.paths import tilde], [from .notifier import Notifier]) and by
    its own assignments and definitions. *)
Definition module_names : list string :=
  [ "os"; "re"; "time"; "stdout"; "stderr"; "platform"; "tilde"; "Notifier";
    "QUIET_MODE"; "DEBUG_MODE"; "WINDOWS"; "DEFAULT_PREFIX_COLOR";
    "DEFAULT_MSG_COLOR"; "_color_format"; "snow"; "white"; "lightgray";
    "smoke"; "dimgray"; "gray"; "cadetblue"; "seafoam"; "cyan"; "blue";
    "purple"; "pink"; "red"; "orange"; "yellow"; "ochre"; "green"; "default";
    "_lightred"; "_lightgreen"; "_brown"; "_lightblue"; "_lightcyan";
    "COL_FUNC"; "COLORS"; "show_colors"; "ConsolePrinter"; "Logger"; "log";
    "debug"; "warn"; "error"; "printf"; "box"; "hline" ].

(** Evaluating a global name that is not a builtin. *)
Definition global (n : string) : M unit :=
  if existsb (String.eqb n) module_names then ret tt else raise NameError.

(** Modelled from the spec: the class [Notifier] of [pouty/notifier.py],
    which is not among the sources.  It is the notification bridge, a
    collaborator with the single capability [notify(body, title, subtitle)],
    fire and forget.  Constructing one and notifying are recorded as
    events. *)
Record Notifier : Type := {
  prog : string;
  echo : bool
}.

Definition Notifier_new (prog : string) (echo : bool) : M Notifier :=
  tell [NotifierNew prog echo] ;; ret {| prog := prog; echo := echo |}.

Definition notify (n : Notifier) (body title : string) (subtitle : option string)
  : M unit :=
  tell [Notify body title subtitle].

(** ** The keyword arguments of [ConsolePrinter.__call__] *)

Module kw.

(** The named parameters, the two keys that the body pops from [**fmt]
    ([prefix], [quiet]; [None] when the key is absent) and the remaining
    keys, the substitutions. *)
Record options : Type := {
  hideprefix : bool;
  popup : bool;
  debug : bool;
  error : bool;
  warning : bool;
  prefix : option string;
  quiet : option bool;
  fmt : list (string * string)
}.

(** A call with no keyword argument. *)
Definition none : options :=
  {| hideprefix := false; popup := false; debug := false; error := false;
     warning := false; prefix := None; quiet := None; fmt := [] |}.

End kw.

(** ** class ConsolePrinter *)

(** The attributes of an instance. *)
Record ConsolePrinter : Type := {
  _prefix : string;
  _pref : string -> string;
  _msgf : string -> string;
  _notifier : option Notifier
}.

Definition with_notifier (n : option Notifier) (self : ConsolePrinter) :=
  {| _prefix := _prefix self; _pref := _pref self; _msgf := _msgf self;
     _notifier := n |}.

(** A text without the escape character. *)
Definition escape_free (s : string) : bool :=
  PyStr.all (fun c => negb (Re.is_ PyStr.ESC c)) s.

(** ** pouty.anybar: the colour of the menubar widget

    [AnyBar.set_color] and [AnyBar.toggle].  An instance is modelled by its
    attributes [color], [port] and [pid] (its [socket] is the one socket of
    the module); a method takes the object and gives it back as the call
    leaves it.  The class list [_instances] holds the objects themselves,
    so a change to the last object is a change to the last element. *)

Module anybar.

Definition COLORS : list string :=
  [ "white"; "red"; "orange"; "yellow"; "green"; "cyan"; "blue"; "purple";
    "black"; "question"; "exclamation" ].

Inductive event : Type :=
| Warn (text : string)                   (* print(text, file=sys.stderr) *)
| SendTo (data host : string) (port : nat). (* socket.sendto(data, (host, port)) *)

Record AnyBar : Type := {
  color : string;
  port : option nat;
  pid : option nat
}.

(** [color in COLORS] *)
Definition valid (color : string) : bool := existsb (String.eqb color) COLORS.

(** Set the colour of the widget.  The colour is encoded to bytes only
    after it was found in [COLORS], whose names are ASCII: the bytes are
    the characters. *)
Definition set_color (self : AnyBar) (color : option string)
  : list event * AnyBar * result unit :=
  let color := match color with None => anybar.color self | Some c => c end in
  match port self, pid self with
  | Some p, Some _ =>
      if negb (valid color) then ([], self, Raise ValueError)
      else
        ([SendTo color "localhost" p],
         {| color := color; port := port self; pid := pid self |}, Ok tt)
  | _, _ => ([Warn ("AnyBar: not running" ++ PyStr.nl)], self, Ok tt)
  end.

(** [{color1: color2, color2: color1}[key]]: the second entry replaces the
    first when the two keys are equal. *)
Definition swap (color1 color2 key : string) : result string :=
  if String.eqb key color2 then Ok color1
  else if String.eqb key color1 then Ok color2
  else Raise KeyError.

(** Toggle the most recent instance between two colours (by default
    ['green'] and ['purple']). *)
Definition toggle (color1 color2 : string) (_instances : list AnyBar)
  : list event * list AnyBar * result unit :=
  match rev _instances with
  | [] => ([], _instances, Ok tt)
  | abar :: earlier =>
      if negb (String.eqb (color abar) color1 || String.eqb (color abar) color2)
      then
        match set_color abar (Some color1) with
        | (ev, abar', r) => (ev, (rev earlier ++ [abar'])%list, r)
        end
      else
        match swap color1 color2 (color abar) with
        | Raise e => ([], _instances, Raise e)
        | Ok c =>
            match set_color abar (Some c) with
            | (ev, abar', r) => (ev, (rev earlier ++ [abar'])%list, r)
            end
        end
  end.

(** The datagrams of a run. *)
Fixpoint sent (ev : list event) : list string :=
  match ev with
  | [] => []
  | SendTo data _ _ :: rest => data :: sent rest
  | _ :: rest => sent rest
  end.


Definition stopped : AnyBar :=
  {| color := "white"; port := None; pid := None |}.

End anybar.

(** A [tilde] for texts that name no home directory. *)
Definition keep (s : string) : string := s.

Section Console.

(** [WINDOWS = (platform == 'win32')], fixed when the module is loaded. *)
Variable WINDOWS : bool.

(** [roto.paths.tilde], of another package: collapses a home-directory
    prefix to a tilde. *)
Variable tilde : string -> string.

(** [os.path.sep] *)
Definition sep : string := if WINDOWS then "\" else "/".

(** [print(text, file=console)] *)
Definition print (text : string) (console : stream) : M unit :=
  tell [Print console (text ++ PyStr.nl)].

Definition set_prefix_color (color : option string) : result (string -> string) :=
  let color := match color with None => DEFAULT_PREFIX_COLOR | Some c => c end in
  if WINDOWS then Ok str else getitem COL_FUNC color.

Definition set_message_color (color : option string) : result (string -> string) :=
  let color := match color with None => DEFAULT_MSG_COLOR | Some c => c end in
  if WINDOWS then Ok str else getitem COL_FUNC color.

Definition __init__ (prefix : string) (prefix_color message_color : option string)
  : result ConsolePrinter :=
  match set_prefix_color prefix_color with
  | Raise e => Raise e
  | Ok pref =>
      match set_message_color message_color with
      | Raise e => Raise e
      | Ok msgf =>
          Ok {| _prefix := prefix; _pref := pref; _msgf := msgf;
                _notifier := None |}
      end
  end.

(** [cls._fd is not None and not cls._fd.closed] *)
Definition isopen (st : state) : bool :=
  match _fd st with
  | Some f => negb (closed f)
  | None => false
  end.

Definition _isopen : M bool :=
  st <- get ;;
  ret (isopen st).

(** Both [print] calls of [openfile] name [sys.stderr]; the argument is
    evaluated before the call. *)
Definition openfile (newfile : bool) : M unit :=
  st <- get ;;
  match _outputfile st with
  | None =>
      global "sys" ;;
      print "No output file has been set" stderr
  | Some path =>
      isopen <- _isopen ;;
      if isopen then ret tt
      else
        let mode := if newfile then "w" else "a" in
        if openable st path then
          tell [FdOpen path mode] ;;
          modify (with_fd (Some {| name := path; mode := mode; closed := false |}))
        else
          (* except IOError: *)
          modify (with_outputfile None) ;;
          modify (with_fd None) ;;
          global "sys" ;;
          print "IOError: Could not open {cls._outputfile!r}" stderr
  end.

Definition closefile : M unit :=
  isopen <- _isopen ;;
  if negb isopen then modify (with_fd None)
  else tell [FdClose] ;; modify (with_fd None).

Definition same_path (a b : option string) : bool :=
  match a, b with
  | Some x, Some y => String.eqb x y
  | None, None => true
  | _, _ => false
  end.

Definition set_outputfile (fpath : option string) (newfile : bool) : M unit :=
  st <- get ;;
  isopen <- _isopen ;;
  if same_path fpath (_outputfile st) && isopen then ret tt
  else
    closefile ;;
    modify (with_outputfile fpath) ;;
    modify (with_fd None) ;;
    match fpath with
    | Some _ => openfile newfile
    | None => ret tt
    end.

Definition set_timestamps (active : bool) : M unit :=
  modify (with_timestamp active).

(** Raw flushed colour output to the console. *)
Definition printf (self : ConsolePrinter) (s : string) (color : option string)
  : M unit :=
  st <- get ;;
  if QUIET_MODE st then ret tt
  else
    colf <- match color with
            | None => ret (_pref self)
            | Some c => lift (getitem COL_FUNC c)
            end ;;
    let s := str s in
    tell [Print stdout (if WINDOWS then s else colf s)] ;;
    isopen <- _isopen ;;
    (if isopen then
       let s_nocolor := Re.strip_color s in
       tell [FdWrite s_nocolor; FdFlush]
     else ret tt) ;;
    modify (with_hanging (negb (PyStr.endswith s PyStr.nl))).

Definition newline (self : ConsolePrinter) : M unit :=
  printf self PyStr.nl None.

Definition hline (self : ConsolePrinter) (ch : string) (length : nat)
           (color : string) : M unit :=
  st <- get ;;
  (if _hanging st then newline self else ret tt) ;;
  printf self (PyStr.mul ch length ++ PyStr.nl) (Some color).

(** Formatted date and time for the current time. *)
Definition timestamp_at (now : Clock) : string :=
  let frac :=
    PyStr.ljust 6 "0"%char
      (PyStr.take 6 (PyStr.last_item (PyStr.split "."%char (time_str now)))) in
  let _tfmt := "[%Y-%m-%d+%H:%M+%S." ++ frac ++ "]" in
  Time.strftime _tfmt (localtime now).

Definition timestamp (self : ConsolePrinter) : M string :=
  st <- get ;;
  ret (timestamp_at (clock st)).

(** *** The blocks of [__call__], in the order of the source *)

(** The quick exit: [True] when the call returns at once. *)
Definition quick_exit (o : kw.options) (st : state) : bool :=
  let quiet := match kw.quiet o with Some q => q | None => QUIET_MODE st end in
  negb (kw.warning o || kw.error o)
  && (quiet || (kw.debug o && negb (DEBUG_MODE st))).

(** The prefix text after the severity flags have been applied. *)
Definition resolved_prefix (self : ConsolePrinter) (o : kw.options) : string :=
  let prefix :=
    PyStr.strip match kw.prefix o with Some p => p | None => _prefix self end in
  let prefix := if kw.debug o then "Debug" else prefix in
  let prefix := if kw.warning o then "Warning" else prefix in
  if kw.error o then "Error" else prefix.

(** [pre] before [hideprefix] is applied, and [pre_len]. *)
Definition visible_pre (prefix : string) : string :=
  if String.eqb prefix "" then "" else prefix ++ ": ".

Definition pre_len (prefix : string) : nat := String.length (visible_pre prefix).

Definition display_pre (prefix : string) (o : kw.options) : string :=
  if kw.hideprefix o then PyStr.mul " " (pre_len prefix) else visible_pre prefix.

(** Construct the display message. *)
Definition display_message (msg : list string) (o : kw.options) : result string :=
  match
    match msg with
    | [] => Raise ValueError
    | [m] => Ok (str m)
    | m :: args => Format.format m args (kw.fmt o)
    end
  with
  | Raise e => Raise e
  | Ok text => Ok (if PyStr.contains sep text then tilde text else text)
  end.

(** Colour functions and stream by severity. *)
Definition pref_of (self : ConsolePrinter) (o : kw.options) : string -> string :=
  if kw.error o then red
  else if kw.warning o then orange
  else if kw.debug o then dimgray
  else _pref self.

Definition msgf_of (self : ConsolePrinter) (o : kw.options) : string -> string :=
  if kw.error o then red
  else if kw.warning o then orange
  else if kw.debug o then smoke
  else _msgf self.

Definition console_of (o : kw.options) : stream :=
  if kw.error o then stderr
  else if kw.warning o then stderr
  else stdout.

(** [for line in lines[1:]: print(' ' * pre_len + msgf(line), file=console)] *)
Fixpoint print_rest (n : nat) (msgf : string -> string) (console : stream)
         (lines : list string) : M unit :=
  match lines with
  | [] => ret tt
  | line :: rest =>
      print (PyStr.mul " " n ++ msgf line) console ;;
      print_rest n msgf console rest
  end.

(** The output to the file if it is open; returns [msg], which the block
    rebinds to its colour-stripped text. *)
Definition mirror (self : ConsolePrinter) (o : kw.options)
           (prefix pre msg : string) : M string :=
  isopen <- _isopen ;;
  if isopen && negb (kw.debug o) then
    st <- get ;;
    (if _timestamp st then
       ts <- timestamp self ;;
       tell [FdWrite ("[ " ++ ts ++ " ]  ")]
     else ret tt) ;;
    (if kw.error o then tell [FdWrite "ERROR -> "]
     else if kw.warning o then tell [FdWrite "WARNING -> "]
     else if negb (String.eqb prefix "")
             && negb (String.eqb prefix (_prefix self))
             && negb (kw.hideprefix o)
          then tell [FdWrite pre]
          else ret tt) ;;
    let msg := Re.strip_color msg in
    tell [FdWrite (msg ++ PyStr.nl)] ;;
    tell [FdFlush] ;;
    ret msg
  else ret msg.

(** Request a system popup notification; returns [self], whose
    [_notifier] is assigned on the first request. *)
Definition request_popup (self : ConsolePrinter) (o : kw.options) (msg : string)
  : M ConsolePrinter :=
  if kw.popup o then
    '(self, n) <- match _notifier self with
                  | None =>
                      n <- Notifier_new "Console" false ;;
                      ret (with_notifier (Some n) self, n)
                  | Some n => ret (self, n)
                  end ;;
    (if kw.error o then notify n (PyStr.drop 7 msg) "Console" (Some "Error")
     else if kw.warning o then notify n (PyStr.drop 9 msg) "Console" (Some "Warning")
     else notify n msg "Console" None) ;;
    ret self
  else ret self.

(** Display a message with colour prefix and multi-line indenting.  The
    value is [self] after the call. *)
Definition __call__ (self : ConsolePrinter) (msg : list string) (o : kw.options)
  : M ConsolePrinter :=
  st <- get ;;
  if quick_exit o st then ret self
  else
    let prefix := resolved_prefix self o in
    let pre := display_pre prefix o in
    msg <- lift (display_message msg o) ;;
    let pref := pref_of self o in
    let msgf := msgf_of self o in
    let console := console_of o in
    (if _hanging st then newline self else ret tt) ;;
    let lines := PyStr.split PyStr.LF msg in
    print (pref pre ++ msgf (hd "" lines)) console ;;
    print_rest (pre_len prefix) msgf console (tl lines) ;;
    msg <- mirror self o prefix pre msg ;;
    request_popup self o msg.

(** [ConsolePrinter.debug] *)
Definition debug (self : ConsolePrinter) (msg : list string) (o : kw.options)
  : M ConsolePrinter :=
  __call__ self msg
    {| kw.hideprefix := kw.hideprefix o; kw.popup := kw.popup o;
       kw.debug := true; kw.error := kw.error o; kw.warning := kw.warning o;
       kw.prefix := kw.prefix o; kw.quiet := kw.quiet o; kw.fmt := kw.fmt o |}.

(** *** The effects of the blocks in closed form *)

Definition printf_events (colf : string -> string) (s : string) (st : state)
  : list event :=
  Print stdout (if WINDOWS then s else colf s)
  :: (if isopen st then [FdWrite (Re.strip_color s); FdFlush] else []).

(** A pending hanging line is resolved: the flag is set and [printf] is
    not silenced. *)
Definition resolves (st : state) : bool := _hanging st && negb (QUIET_MODE st).

Definition hanging_events (self : ConsolePrinter) (st : state) : list event :=
  if resolves st then printf_events (_pref self) PyStr.nl st else [].

Definition after_hanging (st : state) : state :=
  if resolves st then with_hanging false st else st.

Definition rest_events (n : nat) (msgf : string -> string) (console : stream)
           (lines : list string) : list event :=
  map (fun line => Print console ((PyStr.mul " " n ++ msgf line) ++ PyStr.nl)) lines.

Definition mirrors (o : kw.options) (st : state) : bool :=
  isopen st && negb (kw.debug o).

Definition stamp_events (st : state) : list event :=
  if _timestamp st then [FdWrite ("[ " ++ timestamp_at (clock st) ++ " ]  ")]
  else [].

Definition tag_events (self : ConsolePrinter) (o : kw.options)
           (prefix pre : string) : list event :=
  if kw.error o then [FdWrite "ERROR -> "]
  else if kw.warning o then [FdWrite "WARNING -> "]
  else if negb (String.eqb prefix "")
          && negb (String.eqb prefix (_prefix self))
          && negb (kw.hideprefix o)
       then [FdWrite pre]
       else [].

Definition mirror_events (self : ConsolePrinter) (o : kw.options)
           (prefix pre msg : string) (st : state) : list event :=
  if mirrors o st then
    (stamp_events st ++ tag_events self o prefix pre
     ++ [FdWrite (Re.strip_color msg ++ PyStr.nl); FdFlush])%list
  else [].

Definition mirror_msg (o : kw.options) (msg : string) (st : state) : string :=
  if mirrors o st then Re.strip_color msg else msg.

Definition popup_body (o : kw.options) (msg : string) : string :=
  if kw.error o then PyStr.drop 7 msg
  else if kw.warning o then PyStr.drop 9 msg
  else msg.

Definition popup_subtitle (o : kw.options) : option string :=
  if kw.error o then Some "Error"
  else if kw.warning o then Some "Warning"
  else None.

Definition popup_events (self : ConsolePrinter) (o : kw.options) (msg : string)
  : list event :=
  if kw.popup o then
    (match _notifier self with
     | None => [NotifierNew "Console" false]
     | Some _ => []
     end ++ [Notify (popup_body o msg) "Console" (popup_subtitle o)])%list
  else [].

Definition popup_self (self : ConsolePrinter) (o : kw.options) : ConsolePrinter :=
  if kw.popup o then
    match _notifier self with
    | None => with_notifier (Some {| prog := "Console"; echo := false |}) self
    | Some _ => self
    end
  else self.

(** *** Sample data: a printer as [ConsolePrinter()] builds it off
    Windows, a fresh state, and a state with the log file open *)

Definition me : ConsolePrinter :=
  {| _prefix := ""; _pref := cyan; _msgf := default; _notifier := None |}.

Definition noon : Clock :=
  {| time_str := "1704164645.25";
     localtime := {| tm_year := 2024; tm_mon := 1; tm_mday := 2;
                     tm_hour := 3; tm_min := 4; tm_sec := 5 |} |}.

Definition fresh : state :=
  {| QUIET_MODE := false; DEBUG_MODE := false; _outputfile := None;
     _fd := None; _timestamp := false; _hanging := false; clock := noon;
     openable := fun _ => true |}.

Definition x_log : file := {| name := "/tmp/x.log"; mode := "w"; closed := false |}.

Definition logging : state :=
  with_fd (Some x_log) (with_outputfile (Some "/tmp/x.log") fresh).

(** A state whose output file is set to a path that cannot be opened. *)
Definition unopenable : state :=
  {| QUIET_MODE := false; DEBUG_MODE := false;
     _outputfile := Some "/nonexistent/x.log"; _fd := None;
     _timestamp := false; _hanging := false; clock := noon;
     openable := fun _ => false |}.

Definition as_error : kw.options :=
  {| kw.hideprefix := false; kw.popup := false; kw.debug := false;
     kw.error := true; kw.warning := false; kw.prefix := None;
     kw.quiet := None; kw.fmt := [] |}.

Definition as_debug : kw.options :=
  {| kw.hideprefix := false; kw.popup := false; kw.debug := true;
     kw.error := false; kw.warning := false; kw.prefix := None;
     kw.quiet := None; kw.fmt := [] |}.

Definition error_popup : kw.options :=
  {| kw.hideprefix := false; kw.popup := true; kw.debug := false;
     kw.error := true; kw.warning := false; kw.prefix := None;
     kw.quiet := None; kw.fmt := [] |}.

Definition warning_popup : kw.options :=
  {| kw.hideprefix := false; kw.popup := true; kw.debug := false;
     kw.error := false; kw.warning := true; kw.prefix := None;
     kw.quiet := None; kw.fmt := [] |}.

Definition stamped : state := with_timestamp true logging.

(** The state after [printf("abc")] on [fresh]. *)
Definition hung : state := with_hanging true fresh.

Definition quietly : kw.options :=
  {| kw.hideprefix := false; kw.popup := false; kw.debug := false;
     kw.error := false; kw.warning := false; kw.prefix := None;
     kw.quiet := Some true; kw.fmt := [] |}.

Definition hidden_prefix : kw.options :=
  {| kw.hideprefix := true; kw.popup := false; kw.debug := false;
     kw.error := false; kw.warning := false; kw.prefix := Some "job";
     kw.quiet := None; kw.fmt := [] |}.

(** *** The callers: the functions of the module on its printer [Logger],
    and a program that emits one message after the other *)

(** [kwargs.update(debug=True)] and its like. *)
Definition update_debug (o : kw.options) : kw.options :=
  {| kw.hideprefix := kw.hideprefix o; kw.popup := kw.popup o;
     kw.debug := true; kw.error := kw.error o; kw.warning := kw.warning o;
     kw.prefix := kw.prefix o; kw.quiet := kw.quiet o; kw.fmt := kw.fmt o |}.

Definition update_warning (o : kw.options) : kw.options :=
  {| kw.hideprefix := kw.hideprefix o; kw.popup := kw.popup o;
     kw.debug := kw.debug o; kw.error := kw.error o; kw.warning := true;
     kw.prefix := kw.prefix o; kw.quiet := kw.quiet o; kw.fmt := kw.fmt o |}.

Definition update_error (o : kw.options) : kw.options :=
  {| kw.hideprefix := kw.hideprefix o; kw.popup := kw.popup o;
     kw.debug := kw.debug o; kw.error := true; kw.warning := kw.warning o;
     kw.prefix := kw.prefix o; kw.quiet := kw.quiet o; kw.fmt := kw.fmt o |}.

Definition log (Logger : ConsolePrinter) (args : list string) (kwargs : kw.options)
  : M ConsolePrinter :=
  __call__ Logger args kwargs.

Definition warn (Logger : ConsolePrinter) (args : list string) (kwargs : kw.options)
  : M ConsolePrinter :=
  __call__ Logger args (update_warning kwargs).

Definition error (Logger : ConsolePrinter) (args : list string) (kwargs : kw.options)
  : M ConsolePrinter :=
  __call__ Logger args (update_error kwargs).

(** Emits on one printer, in order; an exception ends the program. *)
Fixpoint emits (self : ConsolePrinter) (calls : list (list string * kw.options))
  : M ConsolePrinter :=
  match calls with
  | [] => ret self
  | (msg, o) :: rest =>
      self <- __call__ self msg o ;;
      emits self rest
  end.

(** More sample data: printers with a prefix of their own, a call that
    names a prefix, popup calls. *)
Definition tagged : ConsolePrinter :=
  {| _prefix := "app"; _pref := cyan; _msgf := default; _notifier := None |}.

Definition spaced : ConsolePrinter :=
  {| _prefix := " app "; _pref := cyan; _msgf := default; _notifier := None |}.

Definition job : kw.options :=
  {| kw.hideprefix := false; kw.popup := false; kw.debug := false;
     kw.error := false; kw.warning := false; kw.prefix := Some "job";
     kw.quiet := None; kw.fmt := [] |}.

Definition with_popup : kw.options :=
  {| kw.hideprefix := false; kw.popup := true; kw.debug := false;
     kw.error := false; kw.warning := false; kw.prefix := None;
     kw.quiet := None; kw.fmt := [] |}.

Definition other_log : file := {| name := "/tmp/y.log"; mode := "a"; closed := false |}.

(** A state with another file open. *)
Definition elsewhere : state :=
  with_fd (Some other_log) (with_outputfile (Some "/tmp/y.log") fresh).

(** A printer that holds a notifier. *)
Definition notifying : ConsolePrinter :=
  with_notifier (Some {| prog := "Console"; echo := false |}) me.

(** A printer as [ConsolePrinter()] builds it on Windows. *)
Definition plain_printer : ConsolePrinter :=
  {| _prefix := ""; _pref := str; _msgf := str; _notifier := None |}.

(** *** Run lemmas *)

(** Unfolds the statement combinators; the blocks themselves stay. *)
Ltac run :=
  cbv beta iota zeta
    delta [bind get ret raise tell modify lift _isopen print timestamp
           Notifier_new notify app].

Lemma printf_quiet self s color st :
  QUIET_MODE st = true -> printf self s color st = ([], st, Ok tt).
Proof.
  intros Hq. unfold printf, bind, get. now rewrite Hq.
Qed.

Lemma printf_loud self s color st :
  QUIET_MODE st = false ->
  printf self s color st =
    match match color with
          | None => Ok (_pref self)
          | Some c => getitem COL_FUNC c
          end
    with
    | Raise e => ([], st, Raise e)
    | Ok colf =>
        (printf_events colf s st,
         with_hanging (negb (PyStr.endswith s PyStr.nl)) st, Ok tt)
    end.
Proof.
  intros Hq. unfold printf, printf_events. run. rewrite Hq.
  destruct color as [c|].
  - generalize (getitem COL_FUNC c). intros [colf|e]; [|reflexivity].
    run. destruct (isopen st); reflexivity.
  - run. destruct (isopen st); reflexivity.
Qed.

Lemma resolve_run self st :
  (if _hanging st then newline self else ret tt) st =
    (hanging_events self st, after_hanging st, Ok tt).
Proof.
  unfold hanging_events, after_hanging, resolves, newline.
  destruct (_hanging st); [|reflexivity].
  destruct (QUIET_MODE st) eqn:Hq; cbn [andb negb].
  - now apply printf_quiet.
  - now rewrite printf_loud.
Qed.

Lemma print_rest_run n msgf console lines st :
  print_rest n msgf console lines st =
    (rest_events n msgf console lines, st, Ok tt).
Proof.
  induction lines as [|line rest IH]; [reflexivity|].
  cbn [print_rest]. unfold bind at 1. unfold print, tell.
  rewrite IH. reflexivity.
Qed.

Lemma mirror_run self o prefix pre msg st :
  mirror self o prefix pre msg st =
    (mirror_events self o prefix pre msg st, st, Ok (mirror_msg o msg st)).
Proof.
  unfold mirror, mirror_events, mirror_msg, mirrors, stamp_events, tag_events.
  run.
  destruct (isopen st); cbn [andb]; [|reflexivity].
  destruct (kw.debug o); cbn [negb]; [reflexivity|].
  destruct (_timestamp st), (kw.error o), (kw.warning o); try reflexivity;
    destruct (negb (String.eqb prefix "") && negb (String.eqb prefix (_prefix self))
              && negb (kw.hideprefix o)); reflexivity.
Qed.

Lemma request_popup_run self o msg st :
  request_popup self o msg st =
    (popup_events self o msg, st, Ok (popup_self self o)).
Proof.
  unfold request_popup, popup_events, popup_self, popup_body, popup_subtitle.
  run.
  destruct (kw.popup o); [|reflexivity].
  destruct (_notifier self), (kw.error o), (kw.warning o); reflexivity.
Qed.

Lemma call_quick_exit self msg o st :
  quick_exit o st = true -> __call__ self msg o st = ([], st, Ok self).
Proof.
  intros H. unfold __call__, bind, get. now rewrite H.
Qed.

Lemma call_raise self msg o st e :
  quick_exit o st = false ->
  display_message msg o = Raise e ->
  __call__ self msg o st = ([], st, Raise e).
Proof.
  intros Hg Hm. unfold __call__, bind, get, lift. now rewrite Hg, Hm.
Qed.

(** An emit that is not cut short and whose message renders. *)
Lemma call_run self msg o st text :
  quick_exit o st = false ->
  display_message msg o = Ok text ->
  let prefix := resolved_prefix self o in
  let pre := display_pre prefix o in
  let lines := PyStr.split PyStr.LF text in
  let st1 := after_hanging st in
  __call__ self msg o st =
    ((hanging_events self st
      ++ Print (console_of o)
           ((pref_of self o pre ++ msgf_of self o (hd "" lines)) ++ PyStr.nl)
         :: rest_events (pre_len prefix) (msgf_of self o) (console_of o) (tl lines)
      ++ mirror_events self o prefix pre text st1
      ++ popup_events self o (mirror_msg o text st1))%list,
     st1, Ok (popup_self self o)).
Proof.
  intros Hg Hm. cbv zeta.
  unfold __call__. unfold bind at 1. unfold get. rewrite Hg.
  unfold bind at 1. unfold lift. rewrite Hm.
  unfold bind at 1. rewrite resolve_run.
  unfold bind at 1. unfold print, tell.
  unfold bind at 1. rewrite print_rest_run.
  unfold bind at 1. rewrite mirror_run.
  rewrite request_popup_run.
  cbn [app]. reflexivity.
Qed.

(** *** Gating *)

Lemma quick_exit_debug_mode o st b :
  kw.debug o = false -> quick_exit o (with_DEBUG_MODE b st) = quick_exit o st.
Proof.
  intros Hd. unfold quick_exit. cbn [QUIET_MODE DEBUG_MODE with_DEBUG_MODE].
  now rewrite Hd.
Qed.

(** With [debug] unset, the call does not read [DEBUG_MODE]. *)
Lemma call_debug_mode self msg o st b :
  kw.debug o = false ->
  __call__ self msg o (with_DEBUG_MODE b st) =
    (out (__call__ self msg o st),
     with_DEBUG_MODE b (post (__call__ self msg o st)),
     res (__call__ self msg o st)).
Proof.
  intros Hd.
  destruct (quick_exit o st) eqn:Hg.
  - rewrite !call_quick_exit; [reflexivity|assumption|].
    now rewrite quick_exit_debug_mode.
  - destruct (display_message msg o) as [text|e] eqn:Hm.
    + rewrite (call_run self msg o st text Hg Hm).
      rewrite (call_run self msg o (with_DEBUG_MODE b st) text);
        [|now rewrite quick_exit_debug_mode|assumption].
      unfold out, post, res, hanging_events, after_hanging, resolves,
        mirror_events, mirror_msg, mirrors, stamp_events, printf_events, isopen.
      cbn [fst snd QUIET_MODE DEBUG_MODE _fd _timestamp _hanging clock
           with_DEBUG_MODE].
      destruct (_hanging st), (QUIET_MODE st); reflexivity.
    + rewrite !(call_raise _ _ _ _ e); [reflexivity|assumption|assumption| |assumption].
      now rewrite quick_exit_debug_mode.
Qed.

(** C1.  An emit that is neither a warning nor an error returns at once,
    with nothing printed, nothing written to the file and the state and
    the printer as they were, when the quiet flag in effect (the [quiet]
    keyword if given, else [QUIET_MODE]) is set, or when it is a debug
    emit and [DEBUG_MODE] is off.  A warning or error emit whose message
    renders prints its first line on the error stream whatever the quiet
    flags are.  An emit that is not a debug emit behaves the same under
    either value of [DEBUG_MODE]. *)
Theorem emit_gating self msg o st :
  (kw.warning o = false -> kw.error o = false ->
   match kw.quiet o with Some q => q | None => QUIET_MODE st end = true
   \/ (kw.debug o = true /\ DEBUG_MODE st = false) ->
   __call__ self msg o st = ([], st, Ok self))
  /\ (kw.warning o = true \/ kw.error o = true ->
      forall text, display_message msg o = Ok text ->
      let color := if kw.error o then red else orange in
      let pre := display_pre (if kw.error o then "Error" else "Warning") o in
      exists before after,
        out (__call__ self msg o st) =
          (before
           ++ Print stderr
                ((color pre ++ color (hd "" (PyStr.split PyStr.LF text)))
                 ++ PyStr.nl)
              :: after)%list)
  /\ (kw.debug o = false ->
      forall b,
        __call__ self msg o (with_DEBUG_MODE b st) =
          (out (__call__ self msg o st),
           with_DEBUG_MODE b (post (__call__ self msg o st)),
           res (__call__ self msg o st))).
Proof.
  split; [|split].
  - intros Hw He Hq. apply call_quick_exit.
    unfold quick_exit. rewrite Hw, He. cbn [orb negb andb].
    destruct Hq as [Hq|[Hd Hm]].
    + now rewrite Hq.
    + rewrite Hd, Hm. now destruct (match kw.quiet o with Some q => q | None => _ end).
  - intros Hsev text Hm.
    assert (Hg : quick_exit o st = false).
    { unfold quick_exit. destruct Hsev as [H|H]; rewrite H;
        [|now rewrite orb_true_r]. reflexivity. }
    rewrite (call_run self msg o st text Hg Hm). unfold out. cbn [fst].
    unfold pref_of, msgf_of, console_of, resolved_prefix.
    destruct (kw.error o) eqn:He.
    + eexists. eexists. reflexivity.
    + destruct Hsev as [Hw|Hw]; [|discriminate]. rewrite Hw.
      eexists. eexists. reflexivity.
  - intros Hd b. now apply call_debug_mode.
Qed.

(** *** Usage error *)

(** C4, as the code has it.  An emit without a message argument that is
    not cut short by the quiet and debug gate raises [ValueError] before
    anything is printed, written or changed; one that the gate cuts short
    returns normally. *)
Theorem emit_without_message self o st :
  (quick_exit o st = false -> __call__ self [] o st = ([], st, Raise ValueError))
  /\ (quick_exit o st = true -> __call__ self [] o st = ([], st, Ok self)).
Proof.
  split; intros Hg.
  - now apply call_raise.
  - now apply call_quick_exit.
Qed.

(** *** Raw writes under quiet mode *)

(** C10.  While [QUIET_MODE] is set, [printf] returns at once: nothing is
    printed, nothing is written to the file, and the state, with its
    hanging flag, is as before.  The same holds for the writes built on
    it, [newline] and [hline], so a hanging line stays unresolved. *)
Theorem printf_quiet_mode self s color st :
  QUIET_MODE st = true ->
  printf self s color st = ([], st, Ok tt)
  /\ newline self st = ([], st, Ok tt)
  /\ (forall ch length c, hline self ch length c st = ([], st, Ok tt))
  /\ _hanging (post (printf self s color st)) = _hanging st.
Proof.
  intros Hq.
  assert (Hp : forall t k, printf self t k st = ([], st, Ok tt))
    by (intros; now apply printf_quiet).
  repeat split.
  - apply Hp.
  - apply Hp.
  - intros ch length c. unfold hline. unfold bind at 1. unfold get.
    unfold bind at 1. rewrite resolve_run.
    unfold hanging_events, after_hanging, resolves. rewrite Hq, andb_false_r.
    now rewrite Hp.
  - now rewrite Hp.
Qed.

(** *** Facts on strings and on event lists *)

Lemma length_append (a b : string) :
  String.length (a ++ b) = String.length a + String.length b.
Proof.
  induction a as [|c a IH]; cbn; [reflexivity|now rewrite IH].
Qed.

Lemma append_nil_r (a : string) : a ++ "" = a.
Proof.
  induction a as [|c a IH]; cbn; [reflexivity|now rewrite IH].
Qed.

Lemma append_assoc (a b c : string) : (a ++ b) ++ c = a ++ b ++ c.
Proof.
  induction a as [|x a IH]; cbn; [reflexivity|now rewrite IH].
Qed.

(** Brings nested appends into right-nested form. *)
Ltac str_norm :=
  unfold PyStr.nl;
  repeat (progress (cbn [append]; rewrite ?append_assoc, ?append_nil_r)).

Lemma length_mul_char (c : ascii) (n : nat) :
  String.length (PyStr.mul (String c "") n) = n.
Proof.
  induction n as [|n IH]; cbn; [reflexivity|now rewrite IH].
Qed.

Lemma printed_app c (a b : list event) :
  printed c (a ++ b) = printed c a ++ printed c b.
Proof.
  induction a as [|e a IH]; [reflexivity|].
  destruct e; cbn; try assumption.
  destruct c, console; try assumption; now rewrite IH, append_assoc.
Qed.

Lemma written_app (a b : list event) :
  written (a ++ b) = written a ++ written b.
Proof.
  induction a as [|e a IH]; [reflexivity|].
  destruct e; cbn; try assumption.
  now rewrite IH, append_assoc.
Qed.

Lemma printed_rest_other c c' n f lines :
  c <> c' -> printed c (rest_events n f c' lines) = "".
Proof.
  intros Hc. induction lines as [|l ls IH]; [reflexivity|].
  cbn. destruct c, c'; try assumption; now elim Hc.
Qed.

Lemma written_rest n f c lines : written (rest_events n f c lines) = "".
Proof.
  induction lines as [|l ls IH]; [reflexivity|assumption].
Qed.

Lemma printed_mirror c self o prefix pre msg st :
  printed c (mirror_events self o prefix pre msg st) = "".
Proof.
  unfold mirror_events, stamp_events, tag_events.
  destruct (mirrors o st); [|reflexivity].
  destruct (_timestamp st), (kw.error o), (kw.warning o); try reflexivity;
    destruct (negb (String.eqb prefix "") && negb (String.eqb prefix (_prefix self))
              && negb (kw.hideprefix o)); reflexivity.
Qed.

Lemma printed_popup c self o msg : printed c (popup_events self o msg) = "".
Proof.
  unfold popup_events.
  destruct (kw.popup o); [|reflexivity]. now destruct (_notifier self).
Qed.

Lemma written_popup self o msg : written (popup_events self o msg) = "".
Proof.
  unfold popup_events.
  destruct (kw.popup o); [|reflexivity]. now destruct (_notifier self).
Qed.

Lemma mirror_events_after_hanging self o prefix pre msg st :
  mirror_events self o prefix pre msg (after_hanging st) =
    mirror_events self o prefix pre msg st.
Proof.
  unfold after_hanging. now destruct (resolves st).
Qed.

Lemma mirror_msg_after_hanging o msg st :
  mirror_msg o msg (after_hanging st) = mirror_msg o msg st.
Proof.
  unfold after_hanging. now destruct (resolves st).
Qed.

Lemma hanging_after_hanging st :
  _hanging (after_hanging st) = _hanging st && QUIET_MODE st.
Proof.
  unfold after_hanging, resolves.
  destruct (_hanging st) eqn:Hh, (QUIET_MODE st); cbn [andb negb];
    try assumption; reflexivity.
Qed.

(** *** Hanging lines *)

(** C2, as the code has it.  With [QUIET_MODE] off: a raw [printf] write
    leaves the hanging flag set exactly when the written string does not
    end in a newline.  The next emit that is not cut short and whose
    message renders then starts, when the flag is set, with one newline
    sent through the raw path (printed on the normal stream and mirrored
    to the file if it is open) before its first line, and with nothing
    before its first line when the flag is clear; either way the flag is
    clear after it. *)
Theorem hanging_line_resolved self s color st :
  QUIET_MODE st = false ->
  res (printf self s color st) = Ok tt ->
  let st1 := post (printf self s color st) in
  _hanging st1 = negb (PyStr.endswith s PyStr.nl)
  /\ forall printer msg o text,
      quick_exit o st1 = false ->
      display_message msg o = Ok text ->
      let r := __call__ printer msg o st1 in
      let pre := display_pre (resolved_prefix printer o) o in
      let first :=
        Print (console_of o)
          ((pref_of printer o pre
            ++ msgf_of printer o (hd "" (PyStr.split PyStr.LF text)))
           ++ PyStr.nl) in
      let injected :=
        if PyStr.endswith s PyStr.nl then []
        else Print stdout (if WINDOWS then PyStr.nl else _pref printer PyStr.nl)
             :: (if isopen st then [FdWrite PyStr.nl; FdFlush] else []) in
      (exists after, out r = (injected ++ first :: after)%list)
      /\ _hanging (post r) = false.
Proof.
  intros Hq Hres. rewrite (printf_loud _ _ _ _ Hq) in *.
  destruct (match color with None => Ok (_pref self) | Some c => getitem COL_FUNC c end)
    as [colf|e]; [|discriminate Hres].
  cbv zeta. unfold post at 1. cbn [fst snd _hanging with_hanging].
  split; [reflexivity|].
  intros printer msg o text Hg Hm.
  unfold post in *. cbn [fst snd] in *.
  rewrite (call_run printer msg o _ text Hg Hm).
  unfold out, post. cbn [fst snd].
  rewrite hanging_after_hanging.
  cbn [_hanging QUIET_MODE with_hanging]. rewrite Hq, andb_false_r.
  split; [|reflexivity].
  unfold hanging_events, resolves, printf_events, isopen.
  cbn [_hanging QUIET_MODE with_hanging _fd]. rewrite Hq.
  destruct (PyStr.endswith s PyStr.nl); cbn [negb andb].
  - eexists. reflexivity.
  - change (Re.strip_color PyStr.nl) with PyStr.nl.
    eexists. reflexivity.
Qed.

(** *** The error scenario *)

(** C3, as the code has it.  [emit("Error: {}", "disk full", error=True)]
    prints on the error stream the red prefix [Error: ] followed by the
    red message [Error: disk full], one line, and returns; when the log
    file is open it writes to it the record [ERROR -> Error: disk full]
    with its newline, after the newline of a resolved hanging line and
    the timestamp tag when these apply. *)
Theorem error_scenario self st :
  let r := __call__ self ["Error: {}"; "disk full"] as_error st in
  res r = Ok self
  /\ printed stderr (out r) = red "Error: " ++ red "Error: disk full" ++ PyStr.nl
  /\ written (out r) =
       if isopen st then
         (if resolves st then PyStr.nl else "")
         ++ (if _timestamp st then "[ " ++ timestamp_at (clock st) ++ " ]  " else "")
         ++ "ERROR -> Error: disk full" ++ PyStr.nl
       else "".
Proof.
  assert (Hm : display_message ["Error: {}"; "disk full"] as_error
               = Ok "Error: disk full")
    by (unfold display_message, sep; destruct WINDOWS; reflexivity).
  cbv zeta. rewrite (call_run self _ as_error st _ eq_refl Hm).
  unfold out, res. cbn [fst snd].
  rewrite mirror_events_after_hanging.
  split; [reflexivity|]. split.
  - rewrite printed_app. cbn [printed]. rewrite printed_app, printed_app.
    rewrite printed_mirror, printed_popup.
    unfold hanging_events, printf_events.
    destruct (resolves st), (isopen st); reflexivity.
  - rewrite written_app. cbn [written]. rewrite written_app, written_app.
    rewrite written_popup, written_rest.
    unfold hanging_events, printf_events, mirror_events, mirrors, stamp_events.
    change (Re.strip_color PyStr.nl) with PyStr.nl.
    generalize (timestamp_at (clock st)). intros ts.
    destruct (resolves st), (isopen st), (_timestamp st); cbn;
      rewrite ?append_assoc, ?append_nil_r; reflexivity.
Qed.

(** *** Continuation lines *)

(** C6.  In an emit that prints, every line of the message after the
    first is printed as that many spaces as the visible prefix is wide
    (the prefix text and [: ], or nothing for an empty prefix), followed
    by the coloured line; the rendered prefix has that same width, also
    when [hideprefix] turns it into blanks.  Only the newline of a
    resolved hanging line comes before the first line, and nothing is
    printed after the last. *)
Theorem continuation_lines_indent self msg o st text :
  quick_exit o st = false ->
  display_message msg o = Ok text ->
  let prefix := resolved_prefix self o in
  let width := if String.eqb prefix "" then 0 else String.length prefix + 2 in
  let lines := PyStr.split PyStr.LF text in
  let pre := display_pre prefix o in
  String.length pre = width
  /\ exists after,
      out (__call__ self msg o st) =
        (hanging_events self st
         ++ Print (console_of o)
              ((pref_of self o pre ++ msgf_of self o (hd "" lines)) ++ PyStr.nl)
            :: map (fun line =>
                      Print (console_of o)
                        ((PyStr.mul " " width ++ msgf_of self o line) ++ PyStr.nl))
                 (tl lines)
         ++ after)%list
      /\ printed stdout after = "" /\ printed stderr after = "".
Proof.
  intros Hg Hm. cbv zeta.
  assert (Hw : pre_len (resolved_prefix self o) =
               if String.eqb (resolved_prefix self o) "" then 0
               else String.length (resolved_prefix self o) + 2).
  { unfold pre_len, visible_pre.
    destruct (String.eqb (resolved_prefix self o) ""); [reflexivity|].
    now rewrite length_append. }
  split.
  - unfold display_pre. destruct (kw.hideprefix o).
    + now rewrite length_mul_char.
    + exact Hw.
  - rewrite (call_run self msg o st text Hg Hm). unfold out. cbn [fst].
    rewrite Hw. unfold rest_events.
    eexists. split; [reflexivity|].
    now rewrite !printed_app, !printed_mirror, !printed_popup.
Qed.

(** *** The timestamp tag *)

Lemma all_app p (a b : string) :
  PyStr.all p (a ++ b) = PyStr.all p a && PyStr.all p b.
Proof.
  induction a as [|c a IH]; cbn; [reflexivity|].
  now rewrite IH, andb_assoc.
Qed.

Lemma all_mul_char p c n :
  p c = true -> PyStr.all p (PyStr.mul (String c "") n) = true.
Proof.
  intros Hc. induction n as [|n IH]; cbn; [reflexivity|].
  now rewrite Hc, IH.
Qed.

Lemma all_take p n (s : string) :
  PyStr.all p s = true -> PyStr.all p (PyStr.take n s) = true.
Proof.
  revert s. induction n as [|n IH]; intros [|c s]; cbn; try reflexivity.
  intros H. apply andb_true_iff in H as [Hc Hs].
  now rewrite Hc, IH.
Qed.

Lemma length_take n (s : string) : String.length (PyStr.take n s) <= n.
Proof.
  revert s. induction n as [|n IH]; intros [|c s]; cbn; try lia.
  specialize (IH s). lia.
Qed.

Lemma split_positional (s : string) :
  Time.positional s = true ->
  Forall (fun piece => PyStr.all PyStr.isdigit piece = true)
    (PyStr.split "."%char s).
Proof.
  unfold Time.positional.
  induction s as [|c s IH]; cbn [PyStr.split PyStr.all]; intros H.
  - repeat constructor.
  - apply andb_true_iff in H as [Hc Hs]. specialize (IH Hs).
    destruct (Ascii.eqb c "."%char) eqn:Hdot.
    + constructor; [reflexivity|assumption].
    + rewrite orb_false_r in Hc.
      destruct (PyStr.split "."%char s) as [|h t].
      * constructor; [|constructor]. cbn. now rewrite Hc.
      * inversion IH as [|? ? Hh Ht]; subst.
        constructor; [|assumption]. cbn. now rewrite Hc, Hh.
Qed.

Lemma last_item_digits (xs : list string) :
  Forall (fun piece => PyStr.all PyStr.isdigit piece = true) xs ->
  PyStr.all PyStr.isdigit (PyStr.last_item xs) = true.
Proof.
  unfold PyStr.last_item.
  induction 1 as [|x xs Hx Hxs IH]; [reflexivity|].
  destruct xs; [exact Hx|exact IH].
Qed.

Lemma strftime_digits (d rest : string) t :
  PyStr.all PyStr.isdigit d = true ->
  Time.strftime_go false (d ++ rest) t = d ++ Time.strftime_go false rest t.
Proof.
  induction d as [|c d IH]; cbn [append PyStr.all Time.strftime_go];
    [reflexivity|].
  intros H. apply andb_true_iff in H as [Hc Hd].
  destruct (Ascii.eqb_spec c "%"%char) as [->|_]; [discriminate Hc|].
  now rewrite IH.
Qed.

(** The sub-second field: six characters, digits when the clock text is
    positional. *)
Lemma frac_six (now : Clock) :
  let frac :=
    PyStr.ljust 6 "0"%char
      (PyStr.take 6 (PyStr.last_item (PyStr.split "."%char (time_str now)))) in
  String.length frac = 6
  /\ (Time.positional (time_str now) = true ->
      PyStr.all PyStr.isdigit frac = true).
Proof.
  cbv zeta. unfold PyStr.ljust. split.
  - rewrite length_append, length_mul_char.
    pose proof (length_take 6
      (PyStr.last_item (PyStr.split "."%char (time_str now)))). lia.
  - intros Hp. rewrite all_app, all_mul_char by reflexivity.
    rewrite all_take; [reflexivity|].
    now apply last_item_digits, split_positional.
Qed.

Lemma timestamp_at_form (now : Clock) :
  Time.positional (time_str now) = true ->
  let t := localtime now in
  exists ffffff,
    String.length ffffff = 6
    /\ PyStr.all PyStr.isdigit ffffff = true
    /\ timestamp_at now =
         "[" ++ Time.zpad 4 (tm_year t) ++ "-" ++ Time.zpad 2 (tm_mon t)
         ++ "-" ++ Time.zpad 2 (tm_mday t) ++ "+" ++ Time.zpad 2 (tm_hour t)
         ++ ":" ++ Time.zpad 2 (tm_min t) ++ "+" ++ Time.zpad 2 (tm_sec t)
         ++ "." ++ ffffff ++ "]".
Proof.
  intros Hp. cbv zeta. unfold timestamp_at.
  destruct (frac_six now) as [Hlen Hdig]. specialize (Hdig Hp).
  revert Hlen Hdig.
  generalize (PyStr.ljust 6 "0"%char
    (PyStr.take 6 (PyStr.last_item (PyStr.split "."%char (time_str now))))).
  intros frac Hlen Hdig. exists frac. repeat split; try assumption.
  unfold Time.strftime.
  cbn [append Time.strftime_go Ascii.eqb Bool.eqb Time.directive].
  rewrite strftime_digits by assumption.
  cbn [append Time.strftime_go Ascii.eqb Bool.eqb].
  reflexivity.
Qed.

(** C7, as the code has it.  With the log file open and timestamps on, the
    record that a non-debug emit writes to the file starts with the tag
    [[ [YYYY-MM-DD+HH:MM+SS.ffffff] ]] and two spaces: [timestamp] returns
    the date and time already in brackets and the emit wraps it in a
    second pair.  The sub-second field has six characters, digits when
    the clock text is positional; the severity tag or prefix and the
    colour-stripped message follow.  The newline of a resolved hanging
    line, if any, comes before the record. *)
Theorem timestamp_tag self msg o st text :
  quick_exit o st = false ->
  kw.debug o = false ->
  isopen st = true ->
  _timestamp st = true ->
  display_message msg o = Ok text ->
  Time.positional (time_str (clock st)) = true ->
  let t := localtime (clock st) in
  let prefix := resolved_prefix self o in
  exists ffffff,
    String.length ffffff = 6
    /\ PyStr.all PyStr.isdigit ffffff = true
    /\ written (out (__call__ self msg o st)) =
         (if resolves st then PyStr.nl else "")
         ++ "[ [" ++ Time.zpad 4 (tm_year t) ++ "-" ++ Time.zpad 2 (tm_mon t)
         ++ "-" ++ Time.zpad 2 (tm_mday t) ++ "+" ++ Time.zpad 2 (tm_hour t)
         ++ ":" ++ Time.zpad 2 (tm_min t) ++ "+" ++ Time.zpad 2 (tm_sec t)
         ++ "." ++ ffffff ++ "] ]  "
         ++ written (tag_events self o prefix (display_pre prefix o))
         ++ Re.strip_color text ++ PyStr.nl.
Proof.
  intros Hg Hd Ho Hts Hm Hp. cbv zeta.
  destruct (timestamp_at_form (clock st) Hp) as (ffffff & Hlen & Hdig & Hform).
  exists ffffff. repeat split; try assumption.
  rewrite (call_run self msg o st text Hg Hm). unfold out. cbn [fst].
  rewrite mirror_events_after_hanging.
  rewrite written_app. cbn [written]. rewrite !written_app.
  rewrite written_popup, written_rest.
  unfold hanging_events, printf_events, mirror_events, mirrors, stamp_events.
  rewrite Ho, Hd, Hts, Hform. cbn [andb negb].
  change (Re.strip_color PyStr.nl) with PyStr.nl.
  rewrite !written_app.
  generalize (written (tag_events self o (resolved_prefix self o)
               (display_pre (resolved_prefix self o) o))).
  intros tag.
  destruct (resolves st); cbn [written]; str_norm; reflexivity.
Qed.

(** The date and time fields have their widths for the values a clock
    gives. *)
Lemma zpad_width (w bound : nat) :
  forallb (fun n => Nat.eqb (String.length (Time.zpad w n)) w) (seq 0 bound) = true ->
  forall n, n < bound -> String.length (Time.zpad w n) = w.
Proof.
  intros Hall n Hn. rewrite forallb_forall in Hall.
  apply Nat.eqb_eq, Hall, in_seq. lia.
Qed.

Lemma zpad_two n : n < 100 -> String.length (Time.zpad 2 n) = 2.
Proof.
  apply zpad_width. vm_compute. reflexivity.
Qed.

(** *** Opening the output file *)

(** C5, on the code.  [openfile] on a path that cannot be opened clears
    the stored path and the handle, then raises [NameError] from its
    [print] call, whose [file=sys.stderr] names a module never imported:
    nothing reaches the error stream and the call does not return
    normally.  The same happens through [set_outputfile]. *)
Theorem openfile_failure_raises newfile :
  openfile newfile unopenable =
    ([], with_fd None (with_outputfile None unopenable), Raise NameError)
  /\ printed stderr (out (openfile newfile unopenable)) = ""
  /\ res (set_outputfile (Some "/nonexistent/x.log") newfile unopenable)
     = Raise NameError.
Proof.
  destruct newfile; repeat split; reflexivity.
Qed.

(** *** Colour codes in the file *)

(** C8, on the code.  The pattern removes the seven-character colour
    prefixes and the reset suffix, not the three-character prefix that
    [default] produces: a text coloured by [default] reaches the file,
    through the emit and through [printf], with that prefix in it. *)
Theorem default_prefix_survives_stripping :
  (forall s,
     Re.strip_color (default s) =
       String PyStr.ESC "[m" ++ Re.strip_color (s ++ String PyStr.ESC "[0m"))
  /\ written (out (__call__ me [default "hi"] kw.none logging))
     = String PyStr.ESC "[mhi" ++ PyStr.nl
  /\ written (out (printf me (default "hi") None logging))
     = String PyStr.ESC "[mhi".
Proof.
  split; [|split].
  - intros s. reflexivity.
  - unfold __call__, display_message, sep. destruct WINDOWS; reflexivity.
  - unfold printf. destruct WINDOWS; reflexivity.
Qed.

(** *** Popup notifications *)

Lemma notified_app (a b : list event) :
  notified (a ++ b) = (notified a ++ notified b)%list.
Proof.
  induction a as [|e a IH]; [reflexivity|].
  destruct e; cbn; try assumption. now rewrite IH.
Qed.

Lemma notified_rest n f c lines : notified (rest_events n f c lines) = [].
Proof.
  induction lines as [|l ls IH]; [reflexivity|assumption].
Qed.

Lemma notified_mirror self o prefix pre msg st :
  notified (mirror_events self o prefix pre msg st) = [].
Proof.
  unfold mirror_events, stamp_events, tag_events.
  destruct (mirrors o st); [|reflexivity].
  destruct (_timestamp st), (kw.error o), (kw.warning o); try reflexivity;
    destruct (negb (String.eqb prefix "") && negb (String.eqb prefix (_prefix self))
              && negb (kw.hideprefix o)); reflexivity.
Qed.

Lemma notified_hanging self st : notified (hanging_events self st) = [].
Proof.
  unfold hanging_events, printf_events.
  destruct (resolves st), (isopen st); reflexivity.
Qed.

(** What a popup emit forwards: the message text as the file block left
    it, without its first seven characters for an error and its first
    nine for a warning.  The printer holds a notifier afterwards and a
    printer that holds one constructs none. *)
Lemma popup_forwarded self msg o st text :
  quick_exit o st = false ->
  display_message msg o = Ok text ->
  kw.popup o = true ->
  notified (out (__call__ self msg o st)) = [popup_body o (mirror_msg o text st)]
  /\ (exists self', res (__call__ self msg o st) = Ok self'
                    /\ _notifier self' <> None)
  /\ (_notifier self <> None -> res (__call__ self msg o st) = Ok self).
Proof.
  intros Hg Hm Hp.
  rewrite (call_run self msg o st text Hg Hm). unfold out, res. cbn [fst snd].
  rewrite mirror_msg_after_hanging.
  split; [|split].
  - rewrite notified_app, notified_hanging. cbn [app notified].
    rewrite !notified_app, notified_rest, notified_mirror.
    unfold popup_events. rewrite Hp.
    now destruct (_notifier self).
  - eexists. split; [reflexivity|].
    unfold popup_self. rewrite Hp.
    destruct (_notifier self) eqn:Hn; [now rewrite Hn|discriminate].
  - intros Hn. unfold popup_self. rewrite Hp.
    now destruct (_notifier self).
Qed.

(** C9, on the code.  The body sent for an error popup is the message
    text without its first seven characters, for a warning popup without
    its first nine; the message text does not carry the severity prefix,
    so message characters are lost. *)
Theorem popup_body_loses_message_text :
  notified (out (__call__ me ["disk full"] error_popup fresh)) = ["ll"]
  /\ notified (out (__call__ me ["low battery"] warning_popup fresh)) = ["ry"].
Proof.
  unfold __call__, display_message, sep. destruct WINDOWS; split; reflexivity.
Qed.

(** ** Further properties of the code *)

(** *** Stripping colour codes *)

Lemma sub_go_drop k (s : string) :
  Re.sub_go k s = Re.sub_go 0 (PyStr.drop k s).
Proof.
  revert s. induction k as [|k IH]; intros s; [reflexivity|].
  destruct s as [|c r]; [reflexivity|]. cbn [Re.sub_go PyStr.drop]. apply IH.
Qed.

Lemma drop_app k (s x : string) :
  k <= String.length s -> PyStr.drop k (s ++ x) = PyStr.drop k s ++ x.
Proof.
  revert s. induction k as [|k IH]; intros s Hk; [reflexivity|].
  destruct s as [|c r]; cbn in Hk; [lia|].
  cbn [append PyStr.drop]. apply IH. lia.
Qed.

Lemma length_drop k (s : string) :
  String.length (PyStr.drop k s) <= String.length s.
Proof.
  revert s. induction k as [|k IH]; intros s; [cbn; lia|].
  destruct s as [|c r]; cbn; [lia|]. specialize (IH r). lia.
Qed.

(** A match of the pattern lies within the text. *)
Lemma match_len_bound (s : string) : Re.match_len s <= String.length s.
Proof.
  unfold Re.match_len, Re.color_on, Re.color_off, Re.at_.
  destruct s as [|c0 [|c1 [|c2 [|c3 [|c4 [|c5 [|c6 s]]]]]]]; cbn;
    rewrite ?andb_false_r; cbn; try lia;
    repeat match goal with
           | |- context [if ?b then _ else _] => destruct b; cbn; try lia
           end.
Qed.

(** The reset suffix after a text adds no match that starts in the text. *)
Lemma match_len_reset c (r : string) :
  Re.match_len (String c r ++ String PyStr.ESC "[0m") = Re.match_len (String c r).
Proof.
  unfold Re.match_len, Re.color_on, Re.color_off, Re.at_, Re.is_.
  destruct r as [|c1 [|c2 [|c3 [|c4 [|c5 [|c6 r]]]]]]; cbn;
    rewrite ?andb_false_r; try reflexivity;
    repeat match goal with
           | |- context [Ascii.eqb ?a ?b] => destruct (Ascii.eqb a b); cbn
           | |- context [PyStr.isdigit ?a] => destruct (PyStr.isdigit a); cbn
           end; reflexivity.
Qed.

Lemma strip_reset_suffix (s : string) :
  Re.strip_color (s ++ String PyStr.ESC "[0m") = Re.strip_color s.
Proof.
  unfold Re.strip_color.
  remember (String.length s) as n eqn:Hn.
  assert (Hle : String.length s <= n) by lia. clear Hn.
  revert s Hle. induction n as [|n IH]; intros s Hle.
  - destruct s; [reflexivity|cbn in Hle; lia].
  - destruct s as [|c r]; [reflexivity|].
    cbn [append]. cbn [Re.sub_go].
    change (String c (r ++ String PyStr.ESC "[0m"))
      with (String c r ++ String PyStr.ESC "[0m").
    rewrite match_len_reset.
    pose proof (match_len_bound (String c r)) as Hb.
    destruct (Re.match_len (String c r)) as [|k].
    + cbn in Hle. now rewrite IH by lia.
    + cbn in Hb, Hle.
      rewrite (sub_go_drop k (r ++ _)), (sub_go_drop k r).
      rewrite drop_app by lia. apply IH.
      pose proof (length_drop k r). lia.
Qed.

Lemma strip_plain (s : string) :
  escape_free s = true -> Re.strip_color s = s.
Proof.
  unfold escape_free, Re.strip_color.
  induction s as [|c r IH]; [reflexivity|].
  cbn [PyStr.all]. intros H. apply andb_true_iff in H as [Hc Hr].
  cbn [Re.sub_go].
  assert (Hm : Re.match_len (String c r) = 0).
  { unfold Re.match_len, Re.color_on, Re.color_off, Re.at_. cbn [String.get].
    destruct (Re.is_ PyStr.ESC c); [discriminate Hc|reflexivity]. }
  rewrite Hm. now rewrite IH.
Qed.

(** X1.  A text without the escape character is left as it is by the
    stripping of colour codes. *)
Theorem strip_escape_free (s : string) :
  escape_free s = true -> Re.strip_color s = s.
Proof.
  intros Hs. now apply strip_plain.
Qed.

(** X2.  Round trip of colouring and stripping: for every colour name of
    [COL_FUNC] except [default], stripping a text coloured by its function
    gives what stripping the text gives; a text without the escape
    character comes back unchanged. *)
Theorem strip_inverts_color (color : string) (f : string -> string) (s : string) :
  getitem COL_FUNC color = Ok f ->
  color <> "default" ->
  Re.strip_color (f s) = Re.strip_color s
  /\ (escape_free s = true -> Re.strip_color (f s) = s).
Proof.
  intros Hf Hd.
  assert (H : Re.strip_color (f s) = Re.strip_color s).
  { revert Hf. cbn [getitem COL_FUNC].
    repeat match goal with
           | |- (if String.eqb color ?k then _ else _) = _ -> _ =>
               destruct (String.eqb_spec color k) as [->|_];
               [intros [= <-]; try (exfalso; now apply Hd);
                apply (strip_reset_suffix s)|]
           end.
    discriminate. }
  split; [exact H|]. intros He. rewrite H. now apply strip_plain.
Qed.

(** X3.  Stripping is one pass and not idempotent: once the reset
    sequence between an escape-bracket pair and the characters [0m] is
    removed, what is left is a reset sequence, which only a second pass
    removes. *)
Theorem strip_not_idempotent (t : string) :
  escape_free t = true ->
  let s := String PyStr.ESC "[" ++ String PyStr.ESC "[0m" ++ "0m" ++ t in
  Re.strip_color s = String PyStr.ESC "[0m" ++ t
  /\ Re.strip_color (Re.strip_color s) = t
  /\ Re.strip_color (Re.strip_color s) <> Re.strip_color s.
Proof.
  intros Ht. cbv zeta.
  assert (H1 : Re.strip_color
                 (String PyStr.ESC "[" ++ String PyStr.ESC "[0m" ++ "0m" ++ t)
               = String PyStr.ESC "[0m" ++ t).
  { unfold Re.strip_color. cbn.
    change (Re.sub_go 0 t) with (Re.strip_color t).
    now rewrite strip_plain. }
  assert (H2 : Re.strip_color (String PyStr.ESC "[0m" ++ t) = t).
  { unfold Re.strip_color. cbn.
    change (Re.sub_go 0 t) with (Re.strip_color t).
    now apply strip_plain. }
  rewrite H1, H2. repeat split.
  intros E. apply (f_equal String.length) in E. cbn in E. lia.
Qed.

(** *** The output file *)

Lemma closefile_run st :
  closefile st = (if isopen st then [FdClose] else [], with_fd None st, Ok tt).
Proof.
  unfold closefile. run. destruct (isopen st); reflexivity.
Qed.

(** X4.  Setting the path the open file already has does nothing, also
    when a new file is asked for: the open file is not truncated. *)
Theorem set_outputfile_same_path st p newfile :
  _outputfile st = Some p ->
  isopen st = true ->
  set_outputfile (Some p) newfile st = ([], st, Ok tt).
Proof.
  intros Hp Ho. unfold set_outputfile. run.
  rewrite Hp, Ho. cbn [same_path]. now rewrite String.eqb_refl.
Qed.

Lemma set_outputfile_run (st : state) (p : string) (newfile : bool) :
  same_path (Some p) (_outputfile st) && isopen st = false ->
  openable st p = true ->
  let m := if newfile then "w" else "a" in
  set_outputfile (Some p) newfile st =
    ((if isopen st then [FdClose] else []) ++ [FdOpen p m],
     with_fd (Some {| name := p; mode := m; closed := false |})
       (with_outputfile (Some p) st),
     Ok tt)%list.
Proof.
  intros Hs Ho. cbv zeta. unfold set_outputfile.
  unfold bind at 1. unfold get. unfold bind at 1. unfold _isopen at 1. run.
  rewrite Hs. rewrite closefile_run. unfold openfile. run.
  cbn [_outputfile _fd with_fd with_outputfile isopen openable].
  rewrite Ho. destruct (isopen st), newfile; reflexivity.
Qed.

(** X5.  Setting a path that can be opened, unless it is the path of the
    open file: the open file, if any, is closed first, then the path is
    opened, for writing when a new file is asked for and for appending
    otherwise; afterwards the path is stored and the file is open. *)
Theorem set_outputfile_opens (st : state) (p : string) (newfile : bool) :
  same_path (Some p) (_outputfile st) && isopen st = false ->
  openable st p = true ->
  let m := if newfile then "w" else "a" in
  set_outputfile (Some p) newfile st =
    ((if isopen st then [FdClose] else []) ++ [FdOpen p m],
     with_fd (Some {| name := p; mode := m; closed := false |})
       (with_outputfile (Some p) st),
     Ok tt)%list
  /\ _outputfile (post (set_outputfile (Some p) newfile st)) = Some p
  /\ isopen (post (set_outputfile (Some p) newfile st)) = true.
Proof.
  intros Hs Ho. cbv zeta.
  rewrite (set_outputfile_run st p newfile Hs Ho). repeat split.
Qed.

(** X6.  Setting no path: the open file, if any, is closed, the stored
    path is cleared and nothing is opened. *)
Theorem set_outputfile_none st newfile :
  same_path None (_outputfile st) && isopen st = false ->
  set_outputfile None newfile st =
    (if isopen st then [FdClose] else [],
     with_fd None (with_outputfile None st), Ok tt).
Proof.
  intros Hs. unfold set_outputfile.
  unfold bind at 1. unfold get. unfold bind at 1. unfold _isopen at 1. run.
  rewrite Hs. rewrite closefile_run. run.
  destruct (isopen st); reflexivity.
Qed.

(** X7.  [closefile] can be called in any state: it closes the handle
    exactly when the file is open, keeps the stored path and leaves the
    file not open; a second call does nothing more. *)
Theorem closefile_twice st :
  (out (closefile st) = [FdClose] <-> isopen st = true)
  /\ (out (closefile st) = [] <-> isopen st = false)
  /\ res (closefile st) = Ok tt
  /\ isopen (post (closefile st)) = false
  /\ _outputfile (post (closefile st)) = _outputfile st
  /\ closefile (post (closefile st)) = ([], post (closefile st), Ok tt).
Proof.
  rewrite !closefile_run. unfold out, post, res. cbn [fst snd].
  cbn [isopen _fd with_fd _outputfile].
  destruct (isopen st); repeat split; intros; try reflexivity; discriminate.
Qed.

(** X8.  [openfile] with no path set raises [NameError] from its [print]
    call (the message is never shown) and changes nothing; with the file
    already open it does nothing. *)
Theorem openfile_edges st newfile :
  (_outputfile st = None -> openfile newfile st = ([], st, Raise NameError))
  /\ (forall p, _outputfile st = Some p -> isopen st = true ->
      openfile newfile st = ([], st, Ok tt)).
Proof.
  split.
  - intros Hp. unfold openfile. run. now rewrite Hp.
  - intros p Hp Ho. unfold openfile. run. now rewrite Hp, Ho.
Qed.

(** *** What an emit writes where *)

(** The three ways an emit ends: cut short, message not rendered, run. *)
Ltac emit_cases self msg o st :=
  let Hg := fresh "Hg" in
  let Hm := fresh "Hm" in
  let text := fresh "text" in
  let e := fresh "e" in
  destruct (quick_exit o st) eqn:Hg;
  [ rewrite (call_quick_exit self msg o st Hg)
  | destruct (display_message msg o) as [text|e] eqn:Hm;
    [ rewrite (call_run self msg o st text Hg Hm)
    | rewrite (call_raise self msg o st e Hg Hm) ] ].

Lemma written_hanging self st :
  written (hanging_events self st) = if resolves st && isopen st then PyStr.nl else "".
Proof.
  unfold hanging_events, printf_events.
  destruct (resolves st), (isopen st); reflexivity.
Qed.

Lemma written_mirror self o prefix pre text st :
  written (mirror_events self o prefix pre text st) =
    if mirrors o st then
      (if _timestamp st then "[ " ++ timestamp_at (clock st) ++ " ]  " else "")
      ++ written (tag_events self o prefix pre)
      ++ Re.strip_color text ++ PyStr.nl
    else "".
Proof.
  unfold mirror_events, stamp_events.
  destruct (mirrors o st); [|reflexivity].
  rewrite !written_app.
  destruct (_timestamp st); cbn [written]; str_norm; reflexivity.
Qed.

Lemma written_run self msg o st text :
  quick_exit o st = false ->
  display_message msg o = Ok text ->
  written (out (__call__ self msg o st)) =
    (if resolves st && isopen st then PyStr.nl else "")
    ++ written (mirror_events self o (resolved_prefix self o)
                  (display_pre (resolved_prefix self o) o) text st).
Proof.
  intros Hg Hm. rewrite (call_run self msg o st text Hg Hm).
  unfold out. cbn [fst].
  rewrite written_app. cbn [written]. rewrite !written_app.
  rewrite written_rest, written_popup, written_hanging.
  rewrite mirror_events_after_hanging. now rewrite append_nil_r.
Qed.

(** X9.  An emit leaves the shared state as it found it, but for the
    hanging flag, which it can only clear, and clears only with quiet mode
    off: it never opens or closes the file and never changes the mode
    flags, the stored path or the timestamp switch. *)
Theorem emit_frame self msg o st :
  post (__call__ self msg o st) = st
  \/ (_hanging st = true /\ QUIET_MODE st = false
      /\ post (__call__ self msg o st) = with_hanging false st).
Proof.
  emit_cases self msg o st; unfold post; cbn [fst snd]; try (now left).
  unfold after_hanging, resolves.
  destruct (_hanging st), (QUIET_MODE st); cbn [andb negb]; try (now left).
  right. repeat split.
Qed.

(** X10.  The streams of an emit: one that is neither an error nor a
    warning prints nothing on the error stream; an error or warning emit
    that prints puts on the normal stream only the newline that resolves a
    hanging line. *)
Theorem emit_streams self msg o st :
  (kw.error o = false -> kw.warning o = false ->
   printed stderr (out (__call__ self msg o st)) = "")
  /\ (kw.error o = true \/ kw.warning o = true ->
      forall text, display_message msg o = Ok text ->
      printed stdout (out (__call__ self msg o st)) =
        if resolves st then (if WINDOWS then PyStr.nl else _pref self PyStr.nl)
        else "").
Proof.
  split.
  - intros He Hw. emit_cases self msg o st; try reflexivity.
    unfold out. cbn [fst]. unfold console_of. rewrite He, Hw.
    rewrite printed_app. cbn [printed]. rewrite !printed_app.
    rewrite printed_rest_other by discriminate.
    rewrite printed_mirror, printed_popup.
    unfold hanging_events, printf_events.
    destruct (resolves st), (isopen st); reflexivity.
  - intros Hsev text Hm.
    assert (Hg : quick_exit o st = false).
    { unfold quick_exit. destruct Hsev as [H|H]; rewrite H;
        [now rewrite orb_true_r|reflexivity]. }
    assert (Hc : console_of o = stderr).
    { unfold console_of. destruct Hsev as [H|H]; rewrite H;
        [reflexivity|now destruct (kw.error o)]. }
    rewrite (call_run self msg o st text Hg Hm). unfold out. cbn [fst].
    rewrite Hc.
    rewrite printed_app. cbn [printed]. rewrite !printed_app.
    rewrite printed_rest_other by discriminate.
    rewrite printed_mirror, printed_popup.
    unfold hanging_events, printf_events.
    destruct (resolves st), (isopen st); cbn [printed]; str_norm; reflexivity.
Qed.

(** X11.  With no file open, neither an emit nor a raw write writes
    anything to a file. *)
Theorem nothing_written_when_closed self msg o s color st :
  isopen st = false ->
  written (out (__call__ self msg o st)) = ""
  /\ written (out (printf self s color st)) = "".
Proof.
  intros Ho. split.
  - destruct (quick_exit o st) eqn:Hg.
    + now rewrite call_quick_exit.
    + destruct (display_message msg o) as [text|e] eqn:Hm.
      * rewrite (written_run self msg o st text Hg Hm).
        unfold mirror_events, mirrors. rewrite Ho, andb_false_r. reflexivity.
      * now rewrite (call_raise self msg o st e Hg Hm).
  - destruct (QUIET_MODE st) eqn:Hq.
    + now rewrite printf_quiet.
    + rewrite (printf_loud _ _ _ _ Hq).
      destruct (match color with None => Ok (_pref self) | Some c => getitem COL_FUNC c end);
        [|reflexivity].
      unfold out, printf_events. cbn [fst]. now rewrite Ho.
Qed.

(** X12.  An emit with the debug flag set is never mirrored, whatever its
    other flags: all it can write to the open file is the newline that
    resolves a hanging line. *)
Theorem debug_emit_not_mirrored self msg o st :
  kw.debug o = true ->
  written (out (__call__ self msg o st)) = ""
  \/ (resolves st = true /\ isopen st = true
      /\ written (out (__call__ self msg o st)) = PyStr.nl).
Proof.
  intros Hd.
  destruct (quick_exit o st) eqn:Hg.
  - left. now rewrite call_quick_exit.
  - destruct (display_message msg o) as [text|e] eqn:Hm.
    + rewrite (written_run self msg o st text Hg Hm).
      unfold mirror_events, mirrors. rewrite Hd, andb_false_r.
      destruct (resolves st), (isopen st); cbn [andb];
        try (now left). right. repeat split.
    + left. now rewrite (call_raise self msg o st e Hg Hm).
Qed.

(** X13.  The record of an emit without severity flags, with the file
    open: after the newline of a resolved hanging line and the timestamp
    tag, if any, come the prefix with [: ] and then the colour-stripped
    message and a newline.  The prefix is written only when it is not
    empty, differs from the printer's own prefix and is not hidden; it is
    the stripped prefix that is compared, so a printer whose own prefix
    has no surrounding whitespace never writes it, and one whose own
    prefix has writes the stripped prefix in every record. *)
Theorem plain_record self msg o st text :
  quick_exit o st = false ->
  display_message msg o = Ok text ->
  isopen st = true ->
  kw.debug o = false -> kw.error o = false -> kw.warning o = false ->
  let prefix :=
    PyStr.strip match kw.prefix o with Some p => p | None => _prefix self end in
  let lead :=
    (if resolves st then PyStr.nl else "")
    ++ (if _timestamp st then "[ " ++ timestamp_at (clock st) ++ " ]  " else "") in
  written (out (__call__ self msg o st)) =
    lead
    ++ (if negb (String.eqb prefix "") && negb (String.eqb prefix (_prefix self))
           && negb (kw.hideprefix o)
        then prefix ++ ": " else "")
    ++ Re.strip_color text ++ PyStr.nl
  /\ (kw.prefix o = None -> PyStr.strip (_prefix self) = _prefix self ->
      written (out (__call__ self msg o st)) =
        lead ++ Re.strip_color text ++ PyStr.nl).
Proof.
  intros Hg Hm Ho Hd He Hw. cbv zeta.
  assert (H : written (out (__call__ self msg o st)) =
    ((if resolves st then PyStr.nl else "")
     ++ (if _timestamp st then "[ " ++ timestamp_at (clock st) ++ " ]  " else ""))
    ++ (if negb (String.eqb
                   (PyStr.strip match kw.prefix o with
                                | Some p => p | None => _prefix self end) "")
           && negb (String.eqb
                      (PyStr.strip match kw.prefix o with
                                   | Some p => p | None => _prefix self end)
                      (_prefix self))
           && negb (kw.hideprefix o)
        then PyStr.strip match kw.prefix o with
                         | Some p => p | None => _prefix self end ++ ": "
        else "")
    ++ Re.strip_color text ++ PyStr.nl).
  { rewrite (written_run self msg o st text Hg Hm).
    rewrite written_mirror. unfold mirrors. rewrite Ho, Hd, andb_true_r.
    cbn [andb negb].
    unfold tag_events, resolved_prefix, display_pre, visible_pre.
    rewrite Hd, He, Hw.
    generalize (PyStr.strip match kw.prefix o with
                            | Some p => p | None => _prefix self end).
    intros prefix.
    generalize (timestamp_at (clock st)). intros ts.
    destruct (String.eqb prefix "") eqn:Hp; cbn [negb andb].
    - destruct (resolves st), (_timestamp st); cbn [written]; str_norm; reflexivity.
    - destruct (String.eqb prefix (_prefix self)), (kw.hideprefix o);
        cbn [negb andb];
        destruct (resolves st), (_timestamp st); cbn [written]; str_norm;
        reflexivity. }
  split; [exact H|].
  intros Hn Hs. rewrite H, Hn, Hs, String.eqb_refl.
  now rewrite andb_false_r.
Qed.

(** X14.  A logging session: from a state with no file open, no hanging
    line and timestamps off, setting a path that can be opened with a new
    file asked for, one emit that prints and is not a debug emit, then
    [closefile]: the file is opened for writing, receives exactly the
    severity tag or prefix, the colour-stripped message and a newline, and
    is closed; the stored path stays. *)
Theorem logging_session self msg o st (p : string) text :
  isopen st = false ->
  openable st p = true ->
  _hanging st = false ->
  _timestamp st = false ->
  quick_exit o st = false ->
  kw.debug o = false ->
  display_message msg o = Ok text ->
  let r1 := set_outputfile (Some p) true st in
  let r2 := __call__ self msg o (post r1) in
  let r3 := closefile (post r2) in
  out r1 = [FdOpen p "w"]
  /\ written (out r1 ++ out r2 ++ out r3) =
       written (tag_events self o (resolved_prefix self o)
                  (display_pre (resolved_prefix self o) o))
       ++ Re.strip_color text ++ PyStr.nl
  /\ out r3 = [FdClose]
  /\ isopen (post r3) = false
  /\ _outputfile (post r3) = Some p.
Proof.
  intros Ho Hop Hh Hts Hg Hd Hm. cbv zeta.
  rewrite (set_outputfile_run st p true);
    [|now rewrite Ho, andb_false_r|assumption].
  rewrite Ho. cbn [out post fst snd app].
  set (st1 := with_fd _ (with_outputfile _ st)).
  assert (Hg1 : quick_exit o st1 = false) by exact Hg.
  assert (Hres : resolves st1 = false).
  { unfold resolves, st1. cbn [_hanging with_fd with_outputfile]. now rewrite Hh. }
  assert (Hpost : post (__call__ self msg o st1) = st1).
  { rewrite (call_run self msg o st1 text Hg1 Hm). unfold post. cbn [fst snd].
    unfold after_hanging. now rewrite Hres. }
  change (fst (fst (__call__ self msg o st1))) with (out (__call__ self msg o st1)).
  change (snd (fst (__call__ self msg o st1))) with (post (__call__ self msg o st1)).
  rewrite Hpost. rewrite closefile_run. cbn [fst snd].
  split; [reflexivity|]. split; [|repeat split].
  change (FdOpen p "w" :: ?x)%list with ([FdOpen p "w"] ++ x)%list.
  rewrite !written_app.
  rewrite (written_run self msg o st1 text Hg1 Hm), Hres.
  rewrite written_mirror. unfold mirrors. rewrite Hd.
  cbn [isopen st1 _fd with_fd closed negb andb _timestamp with_outputfile].
  rewrite Hts. cbn [written]. str_norm. reflexivity.
Qed.

(** *** The notifier of a printer *)

Lemma constructed_app (a b : list event) :
  constructed (a ++ b) = constructed a + constructed b.
Proof.
  induction a as [|e a IH]; [reflexivity|].
  destruct e; cbn; try assumption. now rewrite IH.
Qed.

Lemma constructed_rest n f c lines : constructed (rest_events n f c lines) = 0.
Proof.
  induction lines as [|l ls IH]; [reflexivity|assumption].
Qed.

Lemma constructed_mirror self o prefix pre msg st :
  constructed (mirror_events self o prefix pre msg st) = 0.
Proof.
  unfold mirror_events, stamp_events, tag_events.
  destruct (mirrors o st); [|reflexivity].
  destruct (_timestamp st), (kw.error o), (kw.warning o); try reflexivity;
    destruct (negb (String.eqb prefix "") && negb (String.eqb prefix (_prefix self))
              && negb (kw.hideprefix o)); reflexivity.
Qed.

Lemma constructed_hanging self st : constructed (hanging_events self st) = 0.
Proof.
  unfold hanging_events, printf_events.
  destruct (resolves st), (isopen st); reflexivity.
Qed.

(** How many notifiers a printer can still construct. *)
Lemma emit_constructs self msg o st :
  let budget p := match _notifier p with None => 1 | Some _ => 0 end in
  match res (__call__ self msg o st) with
  | Ok self' => constructed (out (__call__ self msg o st)) + budget self' <= budget self
  | Raise _ => constructed (out (__call__ self msg o st)) = 0
  end.
Proof.
  cbv zeta. emit_cases self msg o st; unfold out, res; cbn [fst snd constructed];
    try lia.
  rewrite constructed_app, constructed_hanging. cbn [constructed].
  rewrite !constructed_app, constructed_rest, constructed_mirror.
  unfold popup_events, popup_self.
  destruct (kw.popup o); [|cbn; lia].
  destruct (_notifier self) eqn:Hn; cbn; rewrite ?Hn; lia.
Qed.

(** X15.  Over any sequence of emits on one printer, with popups or
    without, a notifier is constructed at most once, and never when the
    printer already holds one. *)
Theorem notifier_constructed_once self calls st :
  constructed (out (emits self calls st)) <= 1
  /\ (_notifier self <> None -> constructed (out (emits self calls st)) = 0).
Proof.
  assert (H : forall calls self st,
             constructed (out (emits self calls st))
             <= match _notifier self with None => 1 | Some _ => 0 end).
  { clear. intros calls. induction calls as [|[msg o] rest IH]; intros self st.
    - cbn. lia.
    - cbn [emits]. unfold bind.
      pose proof (emit_constructs self msg o st) as Hstep. cbv zeta in Hstep.
      destruct (__call__ self msg o st) as [[ev st1] [self'|e]];
        unfold out, res in Hstep; cbn [fst snd] in Hstep.
      + specialize (IH self' st1).
        destruct (emits self' rest st1) as [[ev' st2] r].
        unfold out in *. cbn [fst snd] in *. rewrite constructed_app. lia.
      + unfold out. cbn [fst]. lia. }
  split.
  - specialize (H calls self st). destruct (_notifier self); lia.
  - intros Hn. specialize (H calls self st).
    destruct (_notifier self); [lia|now elim Hn].
Qed.

(** *** The functions [warn] and [error] of the module *)

(** X16.  [warn] and [error] always print: whatever the keyword arguments
    (a [quiet] or [debug] among them) and the mode flags, a call whose
    message renders prints its first line on the error stream, with the
    prefix [Error] in red, or [Warning] in orange for a [warn] call that
    does not carry [error] itself. *)
Theorem warn_error_always_print Logger args kwargs st text :
  display_message args kwargs = Ok text ->
  let line := hd "" (PyStr.split PyStr.LF text) in
  (exists before after,
     out (error Logger args kwargs st) =
       (before
        ++ Print stderr
             ((red (display_pre "Error" kwargs) ++ red line) ++ PyStr.nl)
           :: after)%list)
  /\ (kw.error kwargs = false ->
      exists before after,
        out (warn Logger args kwargs st) =
          (before
           ++ Print stderr
                ((orange (display_pre "Warning" kwargs) ++ orange line) ++ PyStr.nl)
              :: after)%list).
Proof.
  intros Hm. cbv zeta. split.
  - unfold error.
    assert (Hg : quick_exit (update_error kwargs) st = false).
    { unfold quick_exit. cbn [kw.error kw.warning update_error].
      now rewrite orb_true_r. }
    rewrite (call_run Logger args (update_error kwargs) st text Hg Hm).
    unfold out. cbn [fst]. eexists. eexists. reflexivity.
  - intros He. unfold warn.
    assert (Hg : quick_exit (update_warning kwargs) st = false)
      by reflexivity.
    rewrite (call_run Logger args (update_warning kwargs) st text Hg Hm).
    unfold out. cbn [fst].
    unfold pref_of, msgf_of, console_of, resolved_prefix, display_pre.
    cbn [kw.error kw.warning kw.debug kw.hideprefix update_warning].
    rewrite He. eexists. eexists. reflexivity.
Qed.

(** *** Raw writes *)


(** X18.  Two raw writes in a row, quiet mode off: both strings are
    printed in order on the normal stream, in the printer's prefix colour
    off Windows; their colour-stripped copies are written to the open file
    with nothing added, no timestamp either; the hanging flag is decided by
    the second string alone. *)
Theorem printf_twice self s1 s2 st :
  QUIET_MODE st = false ->
  let r1 := printf self s1 None st in
  let r2 := printf self s2 None (post r1) in
  res r2 = Ok tt
  /\ printed stdout (out r1 ++ out r2) =
       (if WINDOWS then s1 ++ s2 else _pref self s1 ++ _pref self s2)
  /\ printed stderr (out r1 ++ out r2) = ""
  /\ written (out r1 ++ out r2) =
       (if isopen st then Re.strip_color s1 ++ Re.strip_color s2 else "")
  /\ _hanging (post r2) = negb (PyStr.endswith s2 PyStr.nl).
Proof.
  intros Hq. cbv zeta.
  rewrite (printf_loud self s1 None st Hq). cbn [post out fst snd].
  rewrite (printf_loud self s2 None (with_hanging _ st) Hq).
  cbn [post out res fst snd]. unfold printf_events.
  change (isopen (with_hanging (negb (PyStr.endswith s1 PyStr.nl)) st))
    with (isopen st).
  cbn [_hanging with_hanging].
  destruct (isopen st), WINDOWS; cbn [app printed written]; str_norm;
    repeat split; reflexivity.
Qed.

Lemma endswith_nl (s : string) : PyStr.endswith (s ++ PyStr.nl) PyStr.nl = true.
Proof.
  unfold PyStr.endswith. rewrite length_append. cbn [String.length PyStr.nl].
  replace (String.length s + 1 - 1) with (String.length s) by lia.
  replace (Nat.leb 1 (String.length s + 1)) with true
    by (symmetry; apply Nat.leb_le; lia).
  rewrite drop_app by lia.
  assert (Hd : PyStr.drop (String.length s) s = "")
    by (induction s as [|c r IH]; [reflexivity|exact IH]).
  rewrite Hd. reflexivity.
Qed.

Lemma length_mul (s : string) (n : nat) :
  String.length (PyStr.mul s n) = n * String.length s.
Proof.
  induction n as [|n IH]; [reflexivity|].
  cbn [PyStr.mul]. rewrite length_append, IH. lia.
Qed.

(** X19.  [hline] with quiet mode off: with a known colour it resolves a
    hanging line by a newline, prints the rule, [length] copies of [ch],
    and its newline, and leaves the hanging flag clear; with an unknown
    colour it raises [KeyError], after the newline for a hanging line was
    already printed. *)
Theorem hline_rule self (ch : string) (length : nat) (color : string) st :
  QUIET_MODE st = false ->
  let nl_out := if WINDOWS then PyStr.nl else _pref self PyStr.nl in
  let rule := PyStr.mul ch length ++ PyStr.nl in
  (forall colf, getitem COL_FUNC color = Ok colf ->
     res (hline self ch length color st) = Ok tt
     /\ printed stdout (out (hline self ch length color st)) =
          (if _hanging st then nl_out else "")
          ++ (if WINDOWS then rule else colf rule)
     /\ _hanging (post (hline self ch length color st)) = false)
  /\ (getitem COL_FUNC color = Raise KeyError ->
      res (hline self ch length color st) = Raise KeyError
      /\ printed stdout (out (hline self ch length color st)) =
           (if _hanging st then nl_out else "")
      /\ _hanging (post (hline self ch length color st)) = false)
  /\ String.length (PyStr.mul ch length) = length * String.length ch.
Proof.
  intros Hq. cbv zeta.
  assert (Hq' : QUIET_MODE (after_hanging st) = false).
  { unfold after_hanging. now destruct (resolves st). }
  assert (Hrun : hline self ch length color st =
    match printf self (PyStr.mul ch length ++ PyStr.nl) (Some color)
            (after_hanging st) with
    | (ev, st2, r) => ((hanging_events self st ++ ev)%list, st2, r)
    end).
  { unfold hline. unfold bind at 1. unfold get. unfold bind at 1.
    rewrite resolve_run.
    now destruct (printf self (PyStr.mul ch length ++ PyStr.nl) (Some color)
                    (after_hanging st)) as [[ev st2] r]. }
  rewrite Hrun, (printf_loud _ _ _ _ Hq').
  assert (Hh : printed stdout (hanging_events self st) =
               if _hanging st then (if WINDOWS then PyStr.nl else _pref self PyStr.nl)
               else "").
  { unfold hanging_events, resolves, printf_events. rewrite Hq.
    destruct (_hanging st), (isopen st); cbn [andb negb printed]; str_norm;
      reflexivity. }
  assert (Hah : _hanging (after_hanging st) = false).
  { rewrite hanging_after_hanging, Hq. apply andb_false_r. }
  split; [|split].
  - intros colf Hc. rewrite Hc. cbn [out post res fst snd].
    split; [reflexivity|]. split.
    + rewrite printed_app, Hh. unfold printf_events.
      destruct (isopen (after_hanging st)); cbn [printed]; str_norm; reflexivity.
    + cbn [_hanging with_hanging]. now rewrite endswith_nl.
  - intros Hc. rewrite Hc. cbn [out post res fst snd].
    split; [reflexivity|]. split; [|exact Hah].
    now rewrite app_nil_r.
  - apply length_mul.
Qed.

(** *** Windows *)

Lemma all_lstrip p (s : string) :
  PyStr.all p s = true -> PyStr.all p (PyStr.lstrip s) = true.
Proof.
  induction s as [|c r IH]; [reflexivity|]. intros H. cbn [PyStr.lstrip].
  destruct (PyStr.isspace c); [|exact H].
  cbn in H. apply andb_true_iff in H as [_ Hr]. now apply IH.
Qed.

Lemma all_rstrip p (s : string) :
  PyStr.all p s = true -> PyStr.all p (PyStr.rstrip s) = true.
Proof.
  induction s as [|c r IH]; [reflexivity|]. intros H.
  cbn in H. apply andb_true_iff in H as [Hc Hr]. specialize (IH Hr).
  cbn [PyStr.rstrip]. destruct (PyStr.rstrip r) as [|c' r'].
  - destruct (PyStr.isspace c); [reflexivity|]. cbn. now rewrite Hc.
  - change (p c && PyStr.all p (String c' r') = true). now rewrite Hc, IH.
Qed.

Lemma all_split p sep (s : string) :
  PyStr.all p s = true ->
  Forall (fun piece => PyStr.all p piece = true) (PyStr.split sep s).
Proof.
  induction s as [|c s IH]; cbn [PyStr.split PyStr.all]; intros H.
  - repeat constructor.
  - apply andb_true_iff in H as [Hc Hs]. specialize (IH Hs).
    destruct (Ascii.eqb c sep).
    + constructor; [reflexivity|assumption].
    + destruct (PyStr.split sep s) as [|h t].
      * constructor; [|constructor]. cbn. now rewrite Hc.
      * inversion IH as [|? ? Hh Ht]; subst.
        constructor; [|assumption]. cbn. now rewrite Hc, Hh.
Qed.

Lemma escape_free_rest n (lines : list string) :
  Forall (fun piece => escape_free piece = true) lines ->
  escape_free (printed stdout (rest_events n str stdout lines)) = true.
Proof.
  unfold escape_free.
  induction 1 as [|l ls Hl Hls IH]; [reflexivity|].
  cbn [rest_events map printed]. fold (rest_events n str stdout ls).
  unfold str at 1.
  rewrite !all_app, IH, Hl, all_mul_char by reflexivity. reflexivity.
Qed.

(** X21.  On Windows the colour functions of a printer are the identity,
    so an emit without severity flags prints no escape character when the
    prefix and the message hold none; an error emit is still printed in
    red. *)
Theorem windows_emit self msg o st text :
  WINDOWS = true ->
  _pref self = str -> _msgf self = str ->
  quick_exit o st = false ->
  display_message msg o = Ok text ->
  (kw.error o = false -> kw.warning o = false -> kw.debug o = false ->
   escape_free text = true ->
   escape_free match kw.prefix o with Some p => p | None => _prefix self end = true ->
   escape_free (printed stdout (out (__call__ self msg o st))) = true)
  /\ (kw.error o = true ->
      exists tail,
        printed stderr (out (__call__ self msg o st)) =
          String PyStr.ESC "[0;31m" ++ tail).
Proof.
  intros Hwin Hp Hf Hg Hm. rewrite (call_run self msg o st text Hg Hm).
  unfold out. cbn [fst]. split.
  - intros He Hw Hd Ht Hpre.
    unfold pref_of, msgf_of, console_of, resolved_prefix. rewrite He, Hw, Hd, Hp, Hf.
    rewrite printed_app. cbn [printed]. rewrite !printed_app.
    rewrite printed_mirror, printed_popup.
    pose proof (all_split _ PyStr.LF text Ht) as Hlines.
    assert (H0 : escape_free (hd "" (PyStr.split PyStr.LF text)) = true).
    { destruct (PyStr.split PyStr.LF text); [reflexivity|].
      now inversion Hlines. }
    assert (Hrest : Forall (fun piece => escape_free piece = true)
                      (tl (PyStr.split PyStr.LF text))).
    { destruct (PyStr.split PyStr.LF text); [constructor|].
      now inversion Hlines. }
    assert (Hdp : escape_free
                    (display_pre
                       (PyStr.strip match kw.prefix o with
                                    | Some p => p | None => _prefix self end) o)
                  = true).
    { unfold display_pre, visible_pre, pre_len.
      destruct (kw.hideprefix o).
      - apply all_mul_char. reflexivity.
      - destruct (String.eqb _ ""); [reflexivity|].
        unfold escape_free. rewrite all_app.
        unfold PyStr.strip. rewrite all_rstrip; [reflexivity|].
        now apply all_lstrip. }
    pose proof (escape_free_rest
                  (pre_len (PyStr.strip match kw.prefix o with
                                        | Some p => p | None => _prefix self end))
                  _ Hrest) as Hr.
    unfold escape_free in *. unfold str at 1 2.
    rewrite !all_app, Hdp, H0, Hr.
    unfold hanging_events, printf_events. rewrite Hwin.
    destruct (resolves st), (isopen st); reflexivity.
  - intros He.
    unfold pref_of, msgf_of, console_of, resolved_prefix, display_pre, visible_pre.
    rewrite He.
    rewrite printed_app. cbn [printed].
    assert (Hh : printed stderr (hanging_events self st) = "").
    { unfold hanging_events, printf_events.
      destruct (resolves st), (isopen st); reflexivity. }
    rewrite Hh. destruct (kw.hideprefix o); cbn; eexists; reflexivity.
Qed.

(** *** The method [debug] *)

(** X26.  [debug] is an emit with the debug flag forced.  Without a
    warning or error flag it is silent while [DEBUG_MODE] is off, also
    when the call says [quiet=False]; with [DEBUG_MODE] on and the quiet
    flag in effect off, it prints on the normal stream, under the prefix
    [Debug] in place of any prefix of the caller or the printer, and
    nothing on the error stream. *)
Theorem debug_method self msg o st :
  kw.warning o = false -> kw.error o = false ->
  (DEBUG_MODE st = false -> debug self msg o st = ([], st, Ok self))
  /\ (DEBUG_MODE st = true ->
      match kw.quiet o with Some q => q | None => QUIET_MODE st end = false ->
      forall text, display_message msg o = Ok text ->
      (exists after,
         out (debug self msg o st) =
           (hanging_events self st
            ++ Print stdout
                 ((dimgray (display_pre "Debug" o)
                   ++ smoke (hd "" (PyStr.split PyStr.LF text))) ++ PyStr.nl)
               :: after)%list)
      /\ printed stderr (out (debug self msg o st)) = "").
Proof.
  intros Hw He. unfold debug.
  set (o' := {| kw.hideprefix := kw.hideprefix o; kw.popup := kw.popup o;
                kw.debug := true; kw.error := kw.error o;
                kw.warning := kw.warning o; kw.prefix := kw.prefix o;
                kw.quiet := kw.quiet o; kw.fmt := kw.fmt o |}).
  split.
  - intros Hd. apply call_quick_exit. unfold quick_exit.
    cbn [kw.warning kw.error kw.debug kw.quiet o']. rewrite Hw, He, Hd.
    cbn [orb negb andb]. apply orb_true_r.
  - intros Hd Hq text Hm.
    assert (Hg : quick_exit o' st = false).
    { unfold quick_exit. cbn [kw.warning kw.error kw.debug kw.quiet o'].
      now rewrite Hw, He, Hd, Hq. }
    assert (Hm' : display_message msg o' = Ok text) by exact Hm.
    rewrite (call_run self msg o' st text Hg Hm'). unfold out. cbn [fst].
    unfold pref_of, msgf_of, console_of, resolved_prefix, display_pre.
    cbn [kw.warning kw.error kw.debug kw.hideprefix o']. rewrite Hw, He.
    split; [eexists; reflexivity|].
    rewrite printed_app. cbn [printed]. rewrite !printed_app.
    rewrite printed_rest_other by discriminate.
    rewrite printed_mirror, printed_popup.
    unfold hanging_events, printf_events.
    destruct (resolves st), (isopen st); reflexivity.
Qed.

End Console.

(** ** The claims on sample runs *)

Lemma emit_gating_witness :
  __call__ false keep me ["hello"] quietly fresh = ([], fresh, Ok me)
  /\ __call__ false keep me ["hello"] as_debug fresh = ([], fresh, Ok me)
  /\ (exists before after,
        out (__call__ false keep me ["disk full"] as_error
               (with_QUIET_MODE true fresh)) =
          (before
           ++ Print stderr ((red "Error: " ++ red "disk full") ++ PyStr.nl)
              :: after)%list)
  /\ out (__call__ false keep me ["hello"] kw.none (with_DEBUG_MODE true fresh))
     = out (__call__ false keep me ["hello"] kw.none fresh).
Proof.
  split; [|split; [|split]].
  - destruct (emit_gating false keep me ["hello"] quietly fresh) as (H & _).
    exact (H eq_refl eq_refl (or_introl eq_refl)).
  - destruct (emit_gating false keep me ["hello"] as_debug fresh) as (H & _).
    exact (H eq_refl eq_refl (or_intror (conj eq_refl eq_refl))).
  - destruct (emit_gating false keep me ["disk full"] as_error
                (with_QUIET_MODE true fresh)) as (_ & H & _).
    exact (H (or_intror eq_refl) "disk full" eq_refl).
  - destruct (emit_gating false keep me ["hello"] kw.none fresh) as (_ & _ & H).
    exact (f_equal out (H eq_refl true)).
Defined.

Lemma emit_without_message_witness :
  __call__ false keep me [] as_error fresh = ([], fresh, Raise ValueError)
  /\ __call__ false keep me [] quietly fresh = ([], fresh, Ok me).
Proof.
  split.
  - destruct (emit_without_message false keep me as_error fresh) as (H & _).
    exact (H eq_refl).
  - destruct (emit_without_message false keep me quietly fresh) as (_ & H).
    exact (H eq_refl).
Defined.

(** C4 as stated fails: under the quiet flag an emit without a message
    argument returns normally. *)
Lemma emit_without_message_can_return :
  res (__call__ false keep me [] quietly fresh) = Ok me
  /\ res (__call__ false keep me [] quietly fresh) <> Raise ValueError.
Proof.
  split; [reflexivity|discriminate].
Qed.

Lemma printf_quiet_mode_witness :
  printf false me ("done" ++ PyStr.nl) None (with_QUIET_MODE true hung)
  = ([], with_QUIET_MODE true hung, Ok tt)
  /\ _hanging (post (printf false me ("done" ++ PyStr.nl) None
                       (with_QUIET_MODE true hung))) = true.
Proof.
  destruct (printf_quiet_mode false me ("done" ++ PyStr.nl) None
              (with_QUIET_MODE true hung) eq_refl)
    as (H1 & _ & _ & H4).
  split; [exact H1|exact H4].
Defined.

Lemma hanging_line_resolved_witness :
  post (printf false me "abc" None fresh) = hung
  /\ (exists after,
        out (__call__ false keep me ["done"] kw.none hung) =
          (Print stdout (cyan PyStr.nl)
           :: Print stdout ((cyan "" ++ default "done") ++ PyStr.nl)
           :: after)%list)
  /\ _hanging (post (__call__ false keep me ["done"] kw.none hung)) = false.
Proof.
  destruct (hanging_line_resolved false keep me "abc" None fresh eq_refl eq_refl)
    as [H1 H2].
  destruct (H2 me ["done"] kw.none "done" eq_refl eq_refl) as [[after Ha] Hh].
  split; [reflexivity|split; [exists after; exact Ha|exact Hh]].
Defined.

(** C2 as stated fails: a hanging line is left by a raw write, quiet mode is
    then switched on, and an error emit prints its line with no newline
    before it and leaves the flag set. *)
Lemma hanging_line_left_under_quiet_mode :
  PyStr.endswith "abc" PyStr.nl = false
  /\ printf false me "abc" None fresh = ([Print stdout (cyan "abc")], hung, Ok tt)
  /\ __call__ false keep me ["x"] as_error (with_QUIET_MODE true hung)
     = ([Print stderr ((red "Error: " ++ red "x") ++ PyStr.nl)],
        with_QUIET_MODE true hung, Ok me)
  /\ _hanging (with_QUIET_MODE true hung) = true.
Proof.
  repeat split.
Qed.

(** C3 as stated fails: the line reads [Error: Error: disk full] and the
    record is [ERROR -> Error: disk full]. *)
Lemma error_scenario_repeats_tag :
  out (__call__ false keep me ["Error: {}"; "disk full"] as_error logging)
  = [Print stderr ((red "Error: " ++ red "Error: disk full") ++ PyStr.nl);
     FdWrite "ERROR -> "; FdWrite ("Error: disk full" ++ PyStr.nl); FdFlush]
  /\ Re.strip_color
       (printed stderr
          (out (__call__ false keep me ["Error: {}"; "disk full"] as_error logging)))
     <> "Error: disk full" ++ PyStr.nl
  /\ written (out (__call__ false keep me ["Error: {}"; "disk full"] as_error logging))
     <> "ERROR -> disk full" ++ PyStr.nl.
Proof.
  split; [reflexivity|]. split; vm_compute; discriminate.
Qed.

Lemma continuation_lines_indent_witness :
  String.length (display_pre "job" hidden_prefix) = 5
  /\ exists after,
      out (__call__ false keep me ["one" ++ PyStr.nl ++ "two"] hidden_prefix fresh) =
        (Print stdout ((cyan "     " ++ default "one") ++ PyStr.nl)
         :: Print stdout (("     " ++ default "two") ++ PyStr.nl)
         :: after)%list.
Proof.
  destruct (continuation_lines_indent false keep me ["one" ++ PyStr.nl ++ "two"]
              hidden_prefix fresh ("one" ++ PyStr.nl ++ "two") eq_refl eq_refl)
    as [Hw [after [H _]]].
  split; [exact Hw|exists after; exact H].
Defined.

Lemma timestamp_tag_witness :
  exists ffffff,
    String.length ffffff = 6
    /\ written (out (__call__ false keep me ["hello"] kw.none stamped)) =
         "[ [2024-01-02+03:04+05." ++ ffffff ++ "] ]  hello" ++ PyStr.nl.
Proof.
  destruct (timestamp_tag false keep me ["hello"] kw.none stamped "hello"
              eq_refl eq_refl eq_refl eq_refl eq_refl eq_refl)
    as (ffffff & Hlen & _ & H).
  exists ffffff. split; [exact Hlen|exact H].
Defined.

(** C7 as stated fails: the tag has two pairs of brackets; its third
    character is a bracket, not the first digit of the year. *)
Lemma timestamp_tag_has_two_bracket_pairs :
  written (out (__call__ false keep me ["hello"] kw.none stamped))
  = "[ [2024-01-02+03:04+05.250000] ]  hello" ++ PyStr.nl
  /\ String.get 2 (written (out (__call__ false keep me ["hello"] kw.none stamped)))
     = Some "["%char
  /\ written (out (__call__ false keep me ["hello"] kw.none stamped))
     <> "[ 2024-01-02+03:04+05.250000 ]  hello" ++ PyStr.nl.
Proof.
  split; [reflexivity|]. split; [reflexivity|vm_compute; discriminate].
Qed.

(** ** Building a printer *)

Lemma getitem_raises d c e : getitem d c = Raise e -> e = KeyError.
Proof.
  induction d as [|[k f] d IH]; cbn.
  - now intros [= <-].
  - destruct (String.eqb c k); [discriminate|exact IH].
Qed.

(** X20.  [ConsolePrinter(prefix, prefix_color, message_color)]: on Windows
    it accepts any colour names, known or not, and the printer's colour
    functions are [str]; elsewhere the defaults are cyan and the terminal
    default, and a name that is not a key of [COL_FUNC], for the prefix or
    for the message, raises [KeyError]. *)
Theorem init_colors (prefix : string) (c1 c2 : option string) :
  __init__ true prefix c1 c2 =
    Ok {| _prefix := prefix; _pref := str; _msgf := str; _notifier := None |}
  /\ __init__ false prefix None None =
       Ok {| _prefix := prefix; _pref := cyan; _msgf := default; _notifier := None |}
  /\ (forall c, getitem COL_FUNC c = Raise KeyError ->
      __init__ false prefix (Some c) c2 = Raise KeyError
      /\ __init__ false prefix c1 (Some c) = Raise KeyError).
Proof.
  split; [reflexivity|]. split; [reflexivity|].
  intros c Hc. unfold __init__, set_prefix_color, set_message_color. split.
  - now rewrite Hc.
  - destruct (getitem COL_FUNC match c1 with
                               | None => DEFAULT_PREFIX_COLOR | Some c0 => c0 end)
      as [f|e] eqn:H1.
    + now rewrite Hc.
    + now rewrite (getitem_raises _ _ _ H1).
Qed.

(** ** The menubar widget *)

(** X22.  [set_color] on an instance without a port or without a process
    prints the warning, sends nothing and changes nothing, whatever the
    colour: a colour outside [COLORS] is not rejected there, the check
    for a running instance comes first. *)
Theorem set_color_not_running (self : anybar.AnyBar) (color : option string) :
  anybar.port self = None \/ anybar.pid self = None ->
  anybar.set_color self color =
    ([anybar.Warn ("AnyBar: not running" ++ PyStr.nl)], self, Ok tt).
Proof.
  unfold anybar.set_color.
  intros [H|H]; rewrite H; [reflexivity|].
  now destruct (anybar.port self).
Qed.


(** X24.  [toggle] changes the last instance only: the list keeps its
    length and all instances before the last; with no instance it does
    nothing; it never fails on its dictionary lookup.  Whatever it sends
    is one of the two colours. *)
Theorem toggle_last_only (color1 color2 : string) (instances : list anybar.AnyBar) :
  let r := anybar.toggle color1 color2 instances in
  List.length (snd (fst r)) = List.length instances
  /\ removelast (snd (fst r)) = removelast instances
  /\ snd r <> Raise KeyError
  /\ (instances = [] -> r = ([], [], Ok tt))
  /\ (forall c, In c (anybar.sent (fst (fst r))) -> c = color1 \/ c = color2).
Proof.
  cbv zeta. unfold anybar.toggle.
  destruct (rev instances) as [|abar earlier] eqn:Hrev.
  - assert (instances = []) as ->.
    { apply (f_equal (@rev _)) in Hrev. now rewrite rev_involutive in Hrev. }
    cbn. repeat split; try discriminate. intros c [].
  - assert (Hi : instances = (rev earlier ++ [abar])%list).
    { apply (f_equal (@rev _)) in Hrev. now rewrite rev_involutive in Hrev. }
    assert (Hset : forall c,
      let s := anybar.set_color abar (Some c) in
      (c = color1 \/ c = color2) ->
      List.length (rev earlier ++ [snd (fst s)]) = List.length instances
      /\ removelast (rev earlier ++ [snd (fst s)]) = removelast instances
      /\ snd s <> Raise KeyError
      /\ (forall x, In x (anybar.sent (fst (fst s))) -> x = color1 \/ x = color2)).
    { intros c s Hc. subst instances.
      rewrite !length_app, !removelast_last. cbn [List.length].
      split; [reflexivity|]. split; [reflexivity|]. split.
      - unfold s, anybar.set_color.
        destruct (anybar.port abar), (anybar.pid abar); try discriminate.
        destruct (anybar.valid c); discriminate.
      - unfold s, anybar.set_color.
        destruct (anybar.port abar), (anybar.pid abar); try (cbn; tauto).
        destruct (anybar.valid c); cbn.
        + intros x [<-|[]]. exact Hc.
        + intros x []. }
    assert (Hne : instances = [] -> False).
    { intros ->. destruct (rev earlier); discriminate Hi. }
    assert (Hfin : forall c, c = color1 \/ c = color2 ->
      let r := match anybar.set_color abar (Some c) with
               | (ev, abar', r) => (ev, (rev earlier ++ [abar'])%list, r)
               end in
      List.length (snd (fst r)) = List.length instances
      /\ removelast (snd (fst r)) = removelast instances
      /\ snd r <> Raise KeyError
      /\ (instances = [] -> r = ([], [], Ok tt))
      /\ (forall x, In x (anybar.sent (fst (fst r))) -> x = color1 \/ x = color2)).
    { intros c Hc. specialize (Hset c Hc). cbv zeta in *.
      destruct (anybar.set_color abar (Some c)) as [[ev abar'] r].
      cbn [fst snd] in *. destruct Hset as (H1 & H2 & H3 & H4).
      repeat split; try assumption. intros H. now elim Hne. }
    unfold anybar.swap.
    destruct (String.eqb (anybar.color abar) color1),
             (String.eqb (anybar.color abar) color2); cbn [orb negb].
    + apply (Hfin color1). now left.
    + apply (Hfin color2). now right.
    + apply (Hfin color1). now left.
    + apply (Hfin color1). now left.
Qed.


(** ** The further properties on sample runs *)

Lemma strip_escape_free_witness : Re.strip_color "hello" = "hello".
Proof.
  apply (strip_escape_free "hello"). reflexivity.
Defined.

Lemma strip_inverts_color_witness :
  getitem COL_FUNC "red" = Ok red /\ Re.strip_color (red "hello") = "hello".
Proof.
  split; [reflexivity|].
  destruct (strip_inverts_color "red" red "hello") as [_ H];
    [reflexivity|discriminate|].
  apply H. reflexivity.
Defined.

Lemma strip_not_idempotent_witness :
  Re.strip_color (String PyStr.ESC "[" ++ String PyStr.ESC "[0m" ++ "0m" ++ "x")
  = String PyStr.ESC "[0m" ++ "x"
  /\ Re.strip_color (String PyStr.ESC "[0m" ++ "x") = "x".
Proof.
  destruct (strip_not_idempotent "x" eq_refl) as (H1 & H2 & _).
  split; [exact H1|exact H2].
Defined.

Lemma set_outputfile_same_path_witness :
  set_outputfile (Some "/tmp/x.log") true logging = ([], logging, Ok tt).
Proof.
  apply (set_outputfile_same_path logging "/tmp/x.log" true); reflexivity.
Defined.

Lemma set_outputfile_opens_witness :
  out (set_outputfile (Some "/tmp/x.log") false elsewhere)
  = [FdClose; FdOpen "/tmp/x.log" "a"].
Proof.
  destruct (set_outputfile_opens elsewhere "/tmp/x.log" false eq_refl eq_refl)
    as [H _].
  now rewrite H.
Defined.

Lemma set_outputfile_none_witness :
  set_outputfile None false logging =
    ([FdClose], with_fd None (with_outputfile None logging), Ok tt).
Proof.
  apply (set_outputfile_none logging false). reflexivity.
Defined.

Lemma closefile_twice_witness :
  out (closefile logging) = [FdClose]
  /\ closefile (post (closefile logging)) = ([], post (closefile logging), Ok tt).
Proof.
  destruct (closefile_twice logging) as (H1 & _ & _ & _ & _ & H6).
  split; [apply H1; reflexivity|exact H6].
Defined.

Lemma openfile_edges_witness :
  openfile false fresh = ([], fresh, Raise NameError)
  /\ openfile true logging = ([], logging, Ok tt).
Proof.
  split.
  - destruct (openfile_edges fresh false) as [H _]. apply H. reflexivity.
  - destruct (openfile_edges logging true) as [_ H].
    apply (H "/tmp/x.log"); reflexivity.
Defined.

Lemma emit_streams_witness :
  printed stderr (out (__call__ false keep me ["hello"] kw.none hung)) = ""
  /\ printed stdout (out (__call__ false keep me ["disk full"] as_error hung))
     = cyan PyStr.nl.
Proof.
  split.
  - destruct (emit_streams false keep me ["hello"] kw.none hung) as [H _].
    apply H; reflexivity.
  - destruct (emit_streams false keep me ["disk full"] as_error hung) as [_ H].
    exact (H (or_introl eq_refl) "disk full" eq_refl).
Defined.

Lemma nothing_written_when_closed_witness :
  written (out (__call__ false keep me ["hello"] kw.none hung)) = ""
  /\ written (out (printf false me "abc" (Some "green") hung)) = "".
Proof.
  apply (nothing_written_when_closed false keep me ["hello"] kw.none "abc"
           (Some "green") hung).
  reflexivity.
Defined.

Lemma debug_emit_not_mirrored_witness :
  written (out (__call__ false keep me ["step"] as_debug
                  (with_DEBUG_MODE true logging))) = ""
  \/ (resolves (with_DEBUG_MODE true logging) = true
      /\ isopen (with_DEBUG_MODE true logging) = true
      /\ written (out (__call__ false keep me ["step"] as_debug
                         (with_DEBUG_MODE true logging))) = PyStr.nl).
Proof.
  apply (debug_emit_not_mirrored false keep me ["step"] as_debug
           (with_DEBUG_MODE true logging)).
  reflexivity.
Defined.

Lemma plain_record_witness :
  written (out (__call__ false keep spaced ["hello"] kw.none logging))
  = "app: hello" ++ PyStr.nl
  /\ written (out (__call__ false keep tagged ["hello"] kw.none logging))
     = "hello" ++ PyStr.nl
  /\ written (out (__call__ false keep tagged ["hello"] job logging))
     = "job: hello" ++ PyStr.nl.
Proof.
  split; [|split].
  - destruct (plain_record false keep spaced ["hello"] kw.none logging "hello"
                eq_refl eq_refl eq_refl eq_refl eq_refl eq_refl) as [H _].
    exact H.
  - destruct (plain_record false keep tagged ["hello"] kw.none logging "hello"
                eq_refl eq_refl eq_refl eq_refl eq_refl eq_refl) as [_ H].
    exact (H eq_refl eq_refl).
  - destruct (plain_record false keep tagged ["hello"] job logging "hello"
                eq_refl eq_refl eq_refl eq_refl eq_refl eq_refl) as [H _].
    exact H.
Defined.

Lemma logging_session_witness :
  written
    (out (set_outputfile (Some "/tmp/x.log") true fresh)
     ++ out (__call__ false keep me ["hello"] kw.none
               (post (set_outputfile (Some "/tmp/x.log") true fresh)))
     ++ out (closefile
               (post (__call__ false keep me ["hello"] kw.none
                        (post (set_outputfile (Some "/tmp/x.log") true fresh))))))
  = "hello" ++ PyStr.nl.
Proof.
  destruct (logging_session false keep me ["hello"] kw.none fresh "/tmp/x.log"
              "hello" eq_refl eq_refl eq_refl eq_refl eq_refl eq_refl eq_refl)
    as (_ & H & _).
  exact H.
Defined.

Lemma notifier_constructed_once_witness :
  constructed
    (out (emits false keep me [(["a"], with_popup); (["b"], with_popup)] fresh)) <= 1
  /\ constructed
       (out (emits false keep notifying [(["a"], with_popup); (["b"], with_popup)]
               fresh)) = 0.
Proof.
  split.
  - apply (notifier_constructed_once false keep me
             [(["a"], with_popup); (["b"], with_popup)] fresh).
  - apply (notifier_constructed_once false keep notifying
             [(["a"], with_popup); (["b"], with_popup)] fresh).
    discriminate.
Defined.

Lemma warn_error_always_print_witness :
  exists before after,
    out (error false keep me ["disk full"] quietly (with_QUIET_MODE true fresh)) =
      (before
       ++ Print stderr ((red "Error: " ++ red "disk full") ++ PyStr.nl)
          :: after)%list.
Proof.
  destruct (warn_error_always_print false keep me ["disk full"] quietly
              (with_QUIET_MODE true fresh) "disk full" eq_refl) as [H _].
  exact H.
Defined.


Lemma printf_twice_witness :
  written (out (printf false me (red "ab") None logging)
           ++ out (printf false me ("cd" ++ PyStr.nl) None
                     (post (printf false me (red "ab") None logging))))
  = "abcd" ++ PyStr.nl
  /\ _hanging (post (printf false me ("cd" ++ PyStr.nl) None
                       (post (printf false me (red "ab") None logging)))) = false.
Proof.
  destruct (printf_twice false me (red "ab") ("cd" ++ PyStr.nl) logging eq_refl)
    as (_ & _ & _ & H & Hh).
  split; [exact H|exact Hh].
Defined.

Lemma hline_rule_witness :
  printed stdout (out (hline false me "-" 3 "snow" hung))
  = cyan PyStr.nl ++ snow ("---" ++ PyStr.nl)
  /\ res (hline false me "-" 3 "pink-ish" hung) = Raise KeyError
  /\ printed stdout (out (hline false me "-" 3 "pink-ish" hung)) = cyan PyStr.nl.
Proof.
  split.
  - destruct (hline_rule false me "-" 3 "snow" hung eq_refl) as [H _].
    destruct (H snow eq_refl) as (_ & Hp & _). exact Hp.
  - destruct (hline_rule false me "-" 3 "pink-ish" hung eq_refl) as (_ & H & _).
    destruct (H eq_refl) as (Hr & Hp & _). split; [exact Hr|exact Hp].
Defined.

Lemma init_colors_witness :
  __init__ false "job" (Some "pink-ish") None = Raise KeyError
  /\ __init__ false "job" None (Some "pink-ish") = Raise KeyError.
Proof.
  destruct (init_colors "job" None None) as (_ & _ & H).
  apply (H "pink-ish"). reflexivity.
Defined.

Lemma windows_emit_witness :
  escape_free
    (printed stdout (out (__call__ true keep plain_printer ["hello"] job fresh)))
  = true
  /\ exists tail,
      printed stderr (out (__call__ true keep plain_printer ["disk full"] as_error
                             fresh))
      = String PyStr.ESC "[0;31m" ++ tail.
Proof.
  split.
  - destruct (windows_emit true keep plain_printer ["hello"] job fresh "hello"
                eq_refl eq_refl eq_refl eq_refl eq_refl) as [H _].
    exact (H eq_refl eq_refl eq_refl eq_refl eq_refl).
  - destruct (windows_emit true keep plain_printer ["disk full"] as_error fresh
                "disk full" eq_refl eq_refl eq_refl eq_refl eq_refl) as [_ H].
    exact (H eq_refl).
Defined.

Lemma set_color_not_running_witness :
  anybar.set_color anybar.stopped (Some "pink-ish") =
    ([anybar.Warn ("AnyBar: not running" ++ PyStr.nl)], anybar.stopped, Ok tt).
Proof.
  apply (set_color_not_running anybar.stopped (Some "pink-ish")).
  left. reflexivity.
Defined.


Lemma toggle_last_only_witness :
  anybar.toggle "green" "purple" [] = ([], [], Ok tt).
Proof.
  destruct (toggle_last_only "green" "purple" []) as (_ & _ & _ & H & _).
  apply H. reflexivity.
Defined.


Lemma debug_method_witness :
  debug false keep me ["step"] kw.none fresh = ([], fresh, Ok me)
  /\ printed stderr
       (out (debug false keep me ["step"] job (with_DEBUG_MODE true fresh))) = "".
Proof.
  split.
  - destruct (debug_method false keep me ["step"] kw.none fresh eq_refl eq_refl)
      as [H _].
    exact (H eq_refl).
  - destruct (debug_method false keep me ["step"] job (with_DEBUG_MODE true fresh)
                eq_refl eq_refl) as [_ H].
    destruct (H eq_refl eq_refl "step" eq_refl) as [_ Hp]. exact Hp.
Defined.
